(** * AdBlast AI backend (app.py): a shallow embedding and its properties

    The Flask service of [app.py] is modelled over Python values as
    [json.loads] produces them.  Text is a sequence of Unicode code points
    (what [len] and slicing count in Python), dictionaries are finite maps,
    and the two OpenAI calls, [os.getenv] and [print] are effects threaded
    through a state-and-exception monad. *)

From Stdlib Require Import Floats.SpecFloat.
From stdpp Require Import gmap strings list fin_maps.

Set Warnings "-register-all".

Local Open Scope N_scope.

(** ** Text *)

(** A Python [str]: its code points, in order. *)
Abbreviation pystr := (list N).

Module Text.

(** Decoder for the literals of this file: the bytes of a Rocq string
    literal are UTF-8, a Python [str] holds code points. *)
Fixpoint utf8_go (bs : list N) (need : nat) (acc : N) : pystr :=
  match bs with
  | [] => []
  | b :: bs' =>
      match need with
      | O =>
          if b <? 128 then b :: utf8_go bs' 0%nat 0
          else if b <? 224 then utf8_go bs' 1%nat (b - 192)
          else if b <? 240 then utf8_go bs' 2%nat (b - 224)
          else utf8_go bs' 3%nat (b - 240)
      | S n =>
          let acc' := acc * 64 + (b - 128) in
          match n with
          | O => acc' :: utf8_go bs' 0%nat 0
          | S _ => utf8_go bs' n acc'
          end
      end
  end.

Definition lit (s : string) : pystr :=
  utf8_go (map Ascii.N_of_ascii (String.list_ascii_of_string s)) 0%nat 0.

Definition NL : pystr := [10].
Definition DQUOTE : pystr := [34].

(** [str.isspace] on one character, the set [str.strip()] removes:
    the characters CPython's [Py_UNICODE_ISSPACE] accepts. *)
Definition isspace (c : N) : bool :=
  ((9 <=? c) && (c <=? 13)) || ((28 <=? c) && (c <=? 32))
  || (c =? 133) || (c =? 160) || (c =? 5760)
  || ((8192 <=? c) && (c <=? 8202))
  || (c =? 8232) || (c =? 8233) || (c =? 8239) || (c =? 8287)
  || (c =? 12288).

Fixpoint lstrip (s : pystr) : pystr :=
  match s with
  | [] => []
  | c :: s' => if isspace c then lstrip s' else s
  end.

Definition rstrip (s : pystr) : pystr := reverse (lstrip (reverse s)).

(** [s.strip()] *)
Definition strip (s : pystr) : pystr := rstrip (lstrip s).

(** [s.startswith(p)] *)
Fixpoint startswith (s p : pystr) {struct p} : bool :=
  match p, s with
  | [], _ => true
  | _ :: _, [] => false
  | a :: p', b :: s' => (a =? b) && startswith s' p'
  end.

(** [s.endswith(p)] *)
Definition endswith (s p : pystr) : bool := startswith (reverse s) (reverse p).

(** [s[:n]] for a non-negative literal [n] *)
Definition slice_to {A} (n : nat) (s : list A) : list A := take n s.

(** [s[n:]] for a non-negative literal [n] *)
Definition slice_from {A} (n : nat) (s : list A) : list A := drop n s.

(** [s[:-n]] for a positive literal [n]: all but the last [n] items, and
    nothing when there are fewer than [n]. *)
Definition slice_to_neg {A} (n : nat) (s : list A) : list A :=
  take (length s - n) s.

End Text.

Import Text.

(** ** Python values *)

(** The values [json.loads] and [request.get_json] produce. *)
Inductive pyval :=
| PNone
| PBool (b : bool)
| PInt (z : Z)
| PFloat (f : spec_float)
| PStr (s : pystr)
| PList (l : list pyval)
| PDict (d : gmap pystr pyval).

(** [bool(s)] for a text: it is not empty *)
Definition nonempty (s : pystr) : bool :=
  match s with
  | [] => false
  | _ :: _ => true
  end.

(** [bool(v)], the test of [if v:] *)
Definition truthy (v : pyval) : bool :=
  match v with
  | PNone => false
  | PBool b => b
  | PInt z => negb (z =? 0)%Z
  | PFloat (S754_zero _) => false
  | PFloat _ => true
  | PStr s => nonempty s
  | PList l => match l with [] => false | _ => true end
  | PDict d => negb (bool_decide (d = ∅))
  end.

(** [type(v).__name__], as the interpreter's error messages show it *)
Definition type_name (v : pyval) : pystr :=
  match v with
  | PNone => lit "NoneType"
  | PBool _ => lit "bool"
  | PInt _ => lit "int"
  | PFloat _ => lit "float"
  | PStr _ => lit "str"
  | PList _ => lit "list"
  | PDict _ => lit "dict"
  end.

(** ** Exceptions *)

(** The exception classes that occur; all derive from [Exception], and
    [JSONDecodeError] derives from [ValueError]. *)
Inductive exn_class :=
| Exception_
| ValueError
| JSONDecodeError
| AttributeError
| TypeError
| IndexError
| KeyError
| APIError.

(** An exception object: its class and [str(e)]. *)
Record exn := Exn { exn_class_of : exn_class; exn_str : pystr }.

(** [isinstance(e, json.JSONDecodeError)] *)
Definition is_JSONDecodeError (e : exn) : bool :=
  match exn_class_of e with JSONDecodeError => true | _ => false end.

(** [isinstance(e, ValueError)] *)
Definition is_ValueError (e : exn) : bool :=
  match exn_class_of e with ValueError | JSONDecodeError => true | _ => false end.

(** A computation that returns or raises. *)
Definition result (A : Type) : Type := exn + A.

#[export] Instance result_ret : MRet result := fun A x => inr x.
#[export] Instance result_bind : MBind result := fun A B f m =>
  match m with
  | inl e => inl e
  | inr x => f x
  end.

Definition no_attribute (v : pyval) (attr : string) : exn :=
  Exn AttributeError
    (lit "'" ++ type_name v ++ lit "' object has no attribute '" ++ lit attr ++ lit "'").

Definition not_subscriptable (v : pyval) : exn :=
  Exn TypeError (lit "'" ++ type_name v ++ lit "' object is not subscriptable").

Definition not_iterable (v : pyval) : exn :=
  Exn TypeError (lit "'" ++ type_name v ++ lit "' object is not iterable").

(** ** The operations of the interpreter the program uses *)

(** [d.get(k, default)] *)
Definition py_get (d : pyval) (k : pystr) (default_value : pyval) : result pyval :=
  match d with
  | PDict m => inr (default default_value (m !! k))
  | _ => inl (no_attribute d "get")
  end.

(** [v[:n]].  Text and lists are sliced; [None], booleans and numbers are not
    subscriptable; a dict rejects the slice as a key ([TypeError] up to
    CPython 3.11, [KeyError] from 3.12: either way an [Exception] that is no
    [ValueError]). *)
Definition py_slice_to (n : nat) (v : pyval) : result pyval :=
  match v with
  | PStr s => inr (PStr (slice_to n s))
  | PList l => inr (PList (slice_to n l))
  | PDict _ => inl (Exn TypeError (lit "unhashable type: 'slice'"))
  | _ => inl (not_subscriptable v)
  end.

(** [v.strip()] *)
Definition py_strip (v : pyval) : result pystr :=
  match v with
  | PStr s => inr (strip s)
  | _ => inl (no_attribute v "strip")
  end.

(** The items [for x in v] visits: the elements of a list, the characters of
    a text, the keys of a dict. *)
Definition py_iter (v : pyval) : result (list pyval) :=
  match v with
  | PList l => inr l
  | PStr s => inr ((fun c => PStr [c]) <$> s)
  | PDict d => inr ((fun kv => PStr kv.1) <$> map_to_list d)
  | _ => inl (not_iterable v)
  end.

(** [m[k]] on a dict of the program's own *)
Definition py_subscript {A} (m : gmap pystr A) (k : pystr) : result A :=
  match m !! k with
  | Some x => inr x
  | None => inl (Exn KeyError (lit "'" ++ k ++ lit "'"))
  end.

(** ** The keys and constants of app.py *)

Definition k_titulo : pystr := Eval vm_compute in lit "titulo".
Definition k_descricao : pystr := Eval vm_compute in lit "descricao".
Definition k_cta : pystr := Eval vm_compute in lit "cta".
Definition k_image_prompt : pystr := Eval vm_compute in lit "image_prompt".
Definition k_image_url : pystr := Eval vm_compute in lit "image_url".
Definition k_success : pystr := Eval vm_compute in lit "success".
Definition k_error : pystr := Eval vm_compute in lit "error".
Definition k_data : pystr := Eval vm_compute in lit "data".
Definition k_oferta : pystr := Eval vm_compute in lit "oferta".
Definition k_cliente : pystr := Eval vm_compute in lit "cliente".
Definition k_nicho : pystr := Eval vm_compute in lit "nicho".
Definition k_estilo_visual : pystr := Eval vm_compute in lit "estilo_visual".
Definition k_generate_images : pystr := Eval vm_compute in lit "generate_images".
Definition k_OPENAI_API_KEY : pystr := Eval vm_compute in lit "OPENAI_API_KEY".

(** [CHAR_LIMITS] (app.py, lines 23-27) *)
Definition CHAR_LIMITS : gmap pystr nat :=
  <[k_titulo := 40%nat]> (<[k_descricao := 250%nat]> (<[k_cta := 20%nat]> ∅)).

(** ** validate_and_truncate_ads (app.py, lines 62-75) *)

(** The body of the loop: the dict literal of lines 67-72, its four values
    evaluated in order. *)
Definition validate_ad (ad : pyval) : result (gmap pystr pyval) :=
  titulo ← (v ← py_get ad k_titulo (PStr []);
            n ← py_subscript CHAR_LIMITS k_titulo; py_slice_to n v);
  descricao ← (v ← py_get ad k_descricao (PStr []);
               n ← py_subscript CHAR_LIMITS k_descricao; py_slice_to n v);
  cta ← (v ← py_get ad k_cta (PStr []);
         n ← py_subscript CHAR_LIMITS k_cta; py_slice_to n v);
  image_prompt ← (v ← py_get ad k_image_prompt (PStr []); py_slice_to 200 v);
  mret (<[k_titulo := titulo]> (<[k_descricao := descricao]>
         (<[k_cta := cta]> (<[k_image_prompt := image_prompt]> ∅)))).

(** The loop of lines 66-73: each item is validated and appended in turn; the
    first item that raises ends the call. *)
Fixpoint validate_each (items : list pyval) : result (list (gmap pystr pyval)) :=
  match items with
  | [] => mret []
  | ad :: rest =>
      validated_ad ← validate_ad ad;
      validated_ads ← validate_each rest;
      mret (validated_ad :: validated_ads)
  end.

Definition validate_and_truncate_ads (ads : pyval) : result (list (gmap pystr pyval)) :=
  items ← py_iter ads; validate_each items.

(** ** The world outside: environment, upstream service, console *)

(** [client.chat.completions.create(model=, messages=[system, user],
    max_tokens=, temperature=)] *)
Record chat_request := ChatRequest {
  chat_model : pystr;
  chat_system : pystr;
  chat_user : pystr;
  chat_max_tokens : Z;
  chat_temperature : spec_float
}.

(** [client.images.generate(model=, prompt=, size=, quality=, n=)] *)
Record image_request := ImageRequest {
  image_model : pystr;
  image_prompt : pystr;
  image_size : pystr;
  image_quality : pystr;
  image_n : Z
}.

Inductive call :=
| ChatCall (r : chat_request)
| ImageCall (r : image_request).

(** The [client] object.  A call raises or returns a response, of which the
    program reads [response.choices[i].message.content] and
    [response.data[i].url], each a text or [None].  What comes back may
    depend on every call made before. *)
Record OpenAI := {
  chat_completions_create : list call -> chat_request -> result (list (option pystr));
  images_generate : list call -> image_request -> result (list (option pystr))
}.

Record world := World {
  environ : gmap pystr pystr;   (* os.environ, after load_dotenv() *)
  calls : list call;            (* the upstream calls made so far, oldest first *)
  stdout : list pystr           (* the lines printed so far, oldest first *)
}.

(** Effectful code: it reads and changes the world, and returns or raises. *)
Definition M (A : Type) : Type := world -> result A * world.

#[export] Instance M_ret : MRet M := fun A x w => (inr x, w).
#[export] Instance M_bind : MBind M := fun A B f m w =>
  match m w with
  | (inl e, w') => (inl e, w')
  | (inr x, w') => f x w'
  end.

Definition raise {A} (e : exn) : M A := fun w => (inl e, w).

(** A pure computation inside effectful code. *)
Definition lift {A} (r : result A) : M A := fun w => (r, w).

(** [try: body  except Exception as e: handler(e)] *)
Definition try_except {A} (body : M A) (handler : exn -> M A) : M A := fun w =>
  match body w with
  | (inl e, w') => handler e w'
  | (inr x, w') => (inr x, w')
  end.

(** [os.getenv(name)] *)
Definition getenv (name : pystr) : M (option pystr) := fun w => (inr (environ w !! name), w).

(** [print(line)] *)
Definition print (line : pystr) : M unit := fun w =>
  (inr tt, World (environ w) (calls w) (stdout w ++ [line])).

(** [xs[0]] on a list of the upstream response *)
Definition first_item {A} (xs : list A) : result A :=
  match xs with
  | x :: _ => inr x
  | [] => inl (Exn IndexError (lit "list index out of range"))
  end.

(** 0.7 as a binary64 *)
Definition temperature_0_7 : spec_float := S754_finite false 6305039478318694 (-53).

Definition lines (ls : list pystr) : pystr := concat ((fun l => l ++ NL) <$> ls).

(** [SYSTEM_PROMPT_TEXT] (app.py, lines 30-59) *)
Definition SYSTEM_PROMPT_TEXT : pystr := Eval vm_compute in lines [
    lit "Você é um Copywriter Sênior e Estrategista de Tráfego Pago especialista em Direct Response para o mercado brasileiro. Sua especialidade é criar anúncios para Meta Ads (Facebook/Instagram) que param o scroll e geram cliques qualificados.";
    [];
    lit "CONTEXTO DE EXECUÇÃO:";
    lit "O usuário fornecerá: Cliente, Oferta, Função/Nicho e opcionalmente um Estilo Visual.";
    lit "Use os frameworks AIDA (Atenção, Interesse, Desejo, Ação) e PAS (Problema, Agitação, Solução).";
    [];
    lit "REGRAS RÍGIDAS DE CONTEÚDO E FORMATO:";
    lit "1. QUANTIDADE: Gere exatamente 5 variações distintas.";
    lit "2. LIMITES TÉCNICOS (NÃO ULTRAPASSE):";
    lit "   - TÍTULO: Máximo 40 caracteres (Direto e impactante).";
    lit "   - DESCRIÇÃO: Máximo 250 caracteres (Texto mais detalhado, 5-6 linhas, com storytelling).";
    lit "   - CTA: Máximo 20 caracteres (Curto e imperativo).";
    lit "   - IMAGE_PROMPT: Crie um prompt em INGLÊS para gerar uma imagem impactante para o anúncio (máximo 200 caracteres).";
    lit "3. IDIOMA: Português do Brasil (PT-BR) para titulo, descricao e cta. INGLÊS para image_prompt.";
    lit "4. Tom natural, humano e persuasivo. Evite " ++ DQUOTE ++ lit "IA-speak" ++ DQUOTE ++ lit ".";
    [];
    lit "ESTRUTURA DAS VARIAÇÕES:";
    lit "- Variação 1 (PAS): Foco na dor latente do público e na solução rápida.";
    lit "- Variação 2 (Benefício): Foco na transformação clara após usar o produto/serviço.";
    lit "- Variação 3 (Autoridade): Foco em prova social ou tempo de mercado do cliente.";
    lit "- Variação 4 (Escassez): Foco em tempo limitado ou poucas vagas (Urgência Real).";
    lit "- Variação 5 (Direct/Hook): Um gancho de curiosidade forte ou pergunta provocativa.";
    [];
    lit "REQUISITO TÉCNICO DE SAÍDA:";
    lit "Retorne EXCLUSIVAMENTE um array JSON puro, sem blocos de código markdown (sem ```json), sem explicações.";
    lit "Formato: [{" ++ DQUOTE ++ lit "titulo" ++ DQUOTE ++ lit ": " ++ DQUOTE ++ lit "..." ++ DQUOTE ++ lit ", " ++ DQUOTE ++ lit "descricao" ++ DQUOTE ++ lit ": " ++ DQUOTE ++ lit "..." ++ DQUOTE ++ lit ", " ++ DQUOTE ++ lit "cta" ++ DQUOTE ++ lit ": " ++ DQUOTE ++ lit "..." ++ DQUOTE ++ lit ", " ++ DQUOTE ++ lit "image_prompt" ++ DQUOTE ++ lit ": " ++ DQUOTE ++ lit "..." ++ DQUOTE ++ lit "}]";
    [];
    lit "O image_prompt deve descrever uma imagem profissional, moderna e relevante para o anúncio. Exemplo:";
    DQUOTE ++ lit "Professional smiling person in modern office with growth charts, vibrant colors, flat design style" ++ DQUOTE
  ].

(** ** The HTTP response of a view *)

Record response := Response { status : Z; body : pyval }.

(** [jsonify({"success": False, "error": msg}), code] *)
Definition failure (msg : pystr) (code : Z) : response :=
  Response code (PDict (<[k_success := PBool false]> (<[k_error := PStr msg]> ∅))).

(** [jsonify({"success": True, "data": ads})], sent with status 200 *)
Definition success (ads : list (gmap pystr pyval)) : response :=
  Response 200 (PDict (<[k_success := PBool true]> (<[k_data := PList (PDict <$> ads)]> ∅))).

Definition msg_no_api_key : pystr :=
  Eval vm_compute in lit "API Key da OpenAI não configurada. Verifique o arquivo .env".
Definition msg_no_data : pystr :=
  Eval vm_compute in lit "Nenhum dado enviado na requisição".
Definition msg_oferta : pystr := Eval vm_compute in lit "O campo 'oferta' é obrigatório".
Definition msg_cliente : pystr := Eval vm_compute in lit "O campo 'cliente' é obrigatório".
Definition msg_nicho : pystr := Eval vm_compute in lit "O campo 'nicho' é obrigatório".

(** [del ad[k]] *)
Definition py_del (ad : gmap pystr pyval) (k : pystr) : result (gmap pystr pyval) :=
  match ad !! k with
  | Some _ => inr (delete k ad)
  | None => inl (Exn KeyError (lit "'" ++ k ++ lit "'"))
  end.

(** [data.get(k, "").strip()] (lines 205-210) *)
Definition field_text (data : pyval) (k : pystr) : result pystr :=
  v ← py_get data k (PStr []); py_strip v.

(** Lines 151-161: the reply is trimmed, a leading fence marker and a
    trailing one are cut off, and the rest is trimmed again. *)
Definition response_text_of (content : pystr) : pystr :=
  let response_text := strip content in
  let response_text :=
    if startswith response_text (lit "```json") then slice_from 7 response_text
    else response_text in
  let response_text :=
    if startswith response_text (lit "```") then slice_from 3 response_text
    else response_text in
  let response_text :=
    if endswith response_text (lit "```") then slice_to_neg 3 response_text
    else response_text in
  strip response_text.

Section App.

(** The OpenAI client of line 20. *)
Variable client : OpenAI.

(** [json.loads]: the decoded value, or [str(e)] of the [JSONDecodeError]
    it raises. *)
Variable json_loads : pystr -> pystr + pyval.

(** [str(v)] for a value that is not a text, as an f-string inserts it. *)
Variable py_str : pyval -> pystr.

(** [f"{v}"] *)
Definition format_value (v : pyval) : pystr :=
  match v with
  | PStr s => s
  | _ => py_str v
  end.

Definition chat_create (r : chat_request) : M (list (option pystr)) := fun w =>
  (chat_completions_create client (calls w) r,
   World (environ w) (calls w ++ [ChatCall r]) (stdout w)).

Definition image_create (r : image_request) : M (list (option pystr)) := fun w =>
  (images_generate client (calls w) r,
   World (environ w) (calls w ++ [ImageCall r]) (stdout w)).

(** Lines 91-96: the prompt sent to the image model. *)
Definition full_prompt_of (prompt : pyval) (style : pystr) : pystr :=
  let full_prompt := format_value prompt in
  let full_prompt :=
    if nonempty style then full_prompt ++ lit ", " ++ style ++ lit " style"
    else full_prompt in
  lit "Create a professional advertising image: " ++ full_prompt
    ++ lit ". High quality, suitable for social media ads, no text overlay.".

Definition dalle_request (prompt : pyval) (style : pystr) : image_request :=
  ImageRequest (lit "dall-e-3") (full_prompt_of prompt style)
               (lit "1024x1024") (lit "standard") 1.

(** generate_image_with_dalle (lines 78-110): the url of the image, or
    [None]. *)
Definition generate_image_with_dalle (prompt : pyval) (style : pystr) : M pyval :=
  try_except
    (response ← image_create (dalle_request prompt style);
     image ← lift (first_item response);
     mret (match image with Some url => PStr url | None => PNone end))
    (fun e =>
       _ ← print (lit "Erro ao gerar imagem: " ++ exn_str e);
       mret PNone).

(** Lines 127-138 *)
Definition user_prompt_of (oferta cliente nicho estilo_visual : pystr) : pystr :=
  let estilo_info :=
    if nonempty estilo_visual
    then NL ++ lit "ESTILO VISUAL DESEJADO: " ++ estilo_visual
    else [] in
  lit "Gere 5 variações de anúncios para:" ++ NL
  ++ NL
  ++ lit "OFERTA PRINCIPAL: " ++ oferta ++ NL
  ++ lit "CLIENTE/EMPRESA: " ++ cliente ++ NL
  ++ lit "NICHO/PÚBLICO-ALVO: " ++ nicho ++ estilo_info ++ NL
  ++ NL
  ++ lit "Lembre-se:" ++ NL
  ++ lit "- Retorne APENAS o array JSON" ++ NL
  ++ lit "- Inclua o campo " ++ DQUOTE ++ lit "image_prompt" ++ DQUOTE
  ++ lit " em INGLÊS para cada variação" ++ NL
  ++ lit "- A descrição agora pode ter até 250 caracteres (mais detalhada)".

Definition gpt_request (oferta cliente nicho estilo_visual : pystr) : chat_request :=
  ChatRequest (lit "gpt-4o-mini") SYSTEM_PROMPT_TEXT
              (user_prompt_of oferta cliente nicho estilo_visual)
              2000 temperature_0_7.

(** [response.choices[0].message.content] of line 151, as the receiver of
    [.strip()]: a reply without text has no such method. *)
Definition content_of (response : list (option pystr)) : result pystr :=
  choice ← first_item response;
  match choice with
  | Some content => inr content
  | None => inl (no_attribute PNone "strip")
  end.

(** [json.loads(text)] (line 162) *)
Definition loads (text : pystr) : result pyval :=
  match json_loads text with
  | inl detail => inl (Exn JSONDecodeError detail)
  | inr v => inr v
  end.

(** Lines 151-165, after the upstream call: from the reply to the
    validated ads. *)
Definition ads_of_response (response : list (option pystr))
  : result (list (gmap pystr pyval)) :=
  content ← content_of response;
  ads ← loads (response_text_of content);
  validate_and_truncate_ads ads.

(** generate_ads_with_openai (lines 113-170) *)
Definition generate_ads_with_openai (oferta cliente nicho estilo_visual : pystr)
  : M (list (gmap pystr pyval)) :=
  try_except
    (response ← chat_create (gpt_request oferta cliente nicho estilo_visual);
     lift (ads_of_response response))
    (fun e =>
       if is_JSONDecodeError e
       then raise (Exn ValueError (lit "Erro ao processar resposta da IA: " ++ exn_str e))
       else raise (Exn Exception_ (lit "Erro na comunicação com a API: " ++ exn_str e))).

(** Lines 226-235: the loop that generates the images.  Every dict of the
    list is a fresh one built by [validate_ad], so updating it in place
    touches no other item. *)
Fixpoint attach_images (estilo_visual : pystr) (ads : list (gmap pystr pyval))
  : M (list (gmap pystr pyval)) :=
  match ads with
  | [] => mret []
  | ad :: rest =>
      image_prompt ← lift (py_get (PDict ad) k_image_prompt (PStr []));
      ad ← (if truthy image_prompt
            then (image_url ← generate_image_with_dalle image_prompt estilo_visual;
                  mret (<[k_image_url := image_url]> ad))
            else mret (<[k_image_url := PNone]> ad));
      ad ← lift (py_del ad k_image_prompt);
      rest ← attach_images estilo_visual rest;
      mret (ad :: rest)
  end.

(** Lines 238-241: without images. *)
Definition without_image (ad : gmap pystr pyval) : gmap pystr pyval :=
  let ad := match ad !! k_image_prompt with
            | Some _ => delete k_image_prompt ad
            | None => ad
            end in
  <[k_image_url := PNone]> ad.

(** Lines 220-251: the generation stage and its two handlers. *)
Definition generation_stage (oferta cliente nicho estilo_visual : pystr)
                            (generate_images : pyval) : M response :=
  try_except
    (ads ← generate_ads_with_openai oferta cliente nicho estilo_visual;
     ads ← (if truthy generate_images
            then attach_images estilo_visual ads
            else mret (without_image <$> ads));
     mret (success ads))
    (fun e =>
       if is_ValueError e then mret (failure (exn_str e) 422)
       else mret (failure (exn_str e) 500)).

(** generate_ads (lines 173-251), on the body [request.get_json()]
    returned.  An exception that leaves the view is returned as such: the
    framework answers it with its own error page. *)
Definition generate_ads (data : pyval) : M response :=
  api_key ← getenv k_OPENAI_API_KEY;
  if negb (from_option nonempty false api_key)
  then mret (failure msg_no_api_key 500)
  else
    if negb (truthy data) then mret (failure msg_no_data 400)
    else
      oferta ← lift (field_text data k_oferta);
      cliente ← lift (field_text data k_cliente);
      nicho ← lift (field_text data k_nicho);
      estilo_visual ← lift (field_text data k_estilo_visual);
      generate_images ← lift (py_get data k_generate_images (PBool true));
      if negb (nonempty oferta) then mret (failure msg_oferta 400)
      else if negb (nonempty cliente) then mret (failure msg_cliente 400)
      else if negb (nonempty nicho) then mret (failure msg_nicho 400)
      else generation_stage oferta cliente nicho estilo_visual generate_images.

End App.

(** ** The vocabulary of the properties *)

(** The keys of a draft, each with its budget. *)
Definition ad_fields : list (pystr * nat) :=
  [(k_titulo, 40%nat); (k_descricao, 250%nat); (k_cta, 20%nat); (k_image_prompt, 200%nat)].

(** The keys of a validated draft and of a returned ad. *)
Definition draft_keys : gset pystr := {[k_titulo; k_descricao; k_cta; k_image_prompt]}.
Definition result_keys : gset pystr := {[k_titulo; k_descricao; k_cta; k_image_url]}.

(** What [ad.get(k, "")] yields on a dict. *)
Definition field (d : gmap pystr pyval) (k : pystr) : pyval := default (PStr []) (d !! k).

(** [len(v)], where [v] has a length *)
Definition py_len (v : pyval) : option nat :=
  match v with
  | PStr s => Some (length s)
  | PList l => Some (length l)
  | PDict d => Some (size d)
  | _ => None
  end.

(** An ad object in the shape the prompt asks for: a JSON object whose
    titulo, descricao, cta and image_prompt, where present, are texts. *)
Definition is_ad_object (v : pyval) : bool :=
  match v with
  | PDict d =>
      forallb (fun kn : pystr * nat =>
                 match d !! kn.1 with
                 | None | Some (PStr _) => true
                 | Some _ => false
                 end) ad_fields
  | _ => false
  end.

(** The field [k] of [o] is present and has a length of at most [n]. *)
Definition len_at_most (o : gmap pystr pyval) (k : pystr) (n : nat) : Prop :=
  ∃ v m, o !! k = Some v ∧ py_len v = Some m ∧ (m ≤ n)%nat.

(** The field [k] of [o] is a text of at most [n] characters. *)
Definition text_at_most (o : gmap pystr pyval) (k : pystr) (n : nat) : Prop :=
  ∃ s, o !! k = Some (PStr s) ∧ (length s ≤ n)%nat.

Definition len_within_limits (o : gmap pystr pyval) : Prop :=
  len_at_most o k_titulo 40 ∧ len_at_most o k_descricao 250
  ∧ len_at_most o k_cta 20 ∧ len_at_most o k_image_prompt 200.

Definition text_within_limits (o : gmap pystr pyval) : Prop :=
  text_at_most o k_titulo 40 ∧ text_at_most o k_descricao 250
  ∧ text_at_most o k_cta 20 ∧ text_at_most o k_image_prompt 200.

(** The text under [k], empty when the key is missing. *)
Definition text_of (d : gmap pystr pyval) (k : pystr) : pystr :=
  match d !! k with
  | Some (PStr s) => s
  | _ => []
  end.

(** An ad object cut to the budgets. *)
Definition truncated_ad (d : gmap pystr pyval) : gmap pystr pyval :=
  <[k_titulo := PStr (take 40 (text_of d k_titulo))]>
    (<[k_descricao := PStr (take 250 (text_of d k_descricao))]>
       (<[k_cta := PStr (take 20 (text_of d k_cta))]>
          (<[k_image_prompt := PStr (take 200 (text_of d k_image_prompt))]> ∅))).

(** A title of 47 characters and no other field. *)
Definition long_title_ad : pyval :=
  PDict (<[k_titulo := PStr (lit "Promoção de verão imperdível só hoje, corra já!")]> ∅).

(** Validation applied to its own result. *)
Definition validate_twice (ads : pyval) : result (list (gmap pystr pyval)) :=
  out ← validate_and_truncate_ads ads;
  validate_and_truncate_ads (PList (PDict <$> out)).

(** An ad object with all four fields, each a text within its budget. *)
Definition in_budget (v : pyval) : Prop :=
  ∃ d, v = PDict d ∧ text_within_limits d.

(** An ad with all four fields in budget. *)
Definition short_ad : pyval :=
  PDict (<[k_titulo := PStr (lit "Oferta única")]>
        (<[k_descricao := PStr (lit "Só hoje: 50% de desconto.")]>
        (<[k_cta := PStr (lit "Compre já")]>
        (<[k_image_prompt := PStr (lit "A bright shop window")]> ∅)))).

(** What [ad.get("image_prompt", "")] yields (line 227). *)
Definition prompt_of (ad : gmap pystr pyval) : pyval := field ad k_image_prompt.

(** Lines 230-235 on one ad: the url is stored, the prompt removed. *)
Definition with_image (url : pyval) (ad : gmap pystr pyval) : gmap pystr pyval :=
  delete k_image_prompt (<[k_image_url := url]> ad).

(** What generate_image_with_dalle makes of the outcome of its upstream
    call: the url of the first image, and [None] when the call raised, sent
    no image, or sent one without a url. *)
Definition url_of (outcome : result (list (option pystr))) : pyval :=
  match outcome with
  | inr (Some url :: _) => PStr url
  | _ => PNone
  end.

(** The console after generate_image_with_dalle has seen the outcome. *)
Definition log_of (outcome : result (list (option pystr))) (out : list pystr) : list pystr :=
  match outcome with
  | inl e => out ++ [lit "Erro ao gerar imagem: " ++ exn_str e]
  | inr [] => out ++ [lit "Erro ao gerar imagem: " ++ lit "list index out of range"]
  | inr (_ :: _) => out
  end.

(** The image calls a list of drafts leads to: one for each draft with a
    prompt that is not empty, in the order of the drafts. *)
Fixpoint image_calls (py_str : pyval -> pystr) (style : pystr)
    (ads : list (gmap pystr pyval)) : list call :=
  match ads with
  | [] => []
  | ad :: rest =>
      (if truthy (prompt_of ad)
       then [ImageCall (dalle_request py_str (prompt_of ad) style)]
       else [])
      ++ image_calls py_str style rest
  end.

(** The API key is set and not empty. *)
Definition configured (w : world) : Prop :=
  ∃ key, environ w !! k_OPENAI_API_KEY = Some key ∧ key ≠ [].

(** Lines 196-211 go through on the body [data] and read these values. *)
Definition reads (data : pyval) (oferta cliente nicho estilo_visual : pystr)
    (generate_images : pyval) : Prop :=
  truthy data = true
  ∧ field_text data k_oferta = inr oferta
  ∧ field_text data k_cliente = inr cliente
  ∧ field_text data k_nicho = inr nicho
  ∧ field_text data k_estilo_visual = inr estilo_visual
  ∧ py_get data k_generate_images (PBool true) = inr generate_images.

(** The request passes the checks of lines 190-218. *)
Definition accepted (w : world) (data : pyval) (oferta cliente nicho estilo_visual : pystr)
    (generate_images : pyval) : Prop :=
  configured w
  ∧ reads data oferta cliente nicho estilo_visual generate_images
  ∧ oferta ≠ [] ∧ cliente ≠ [] ∧ nicho ≠ [].

(** The world once the chat request [r] has been sent. *)
Definition after_chat (w : world) (r : chat_request) : world :=
  World (environ w) (calls w ++ [ChatCall r]) (stdout w).

(** What the handlers of lines 167-170 raise in place of [e]. *)
Definition reraised (e : exn) : exn :=
  if is_JSONDecodeError e
  then Exn ValueError (lit "Erro ao processar resposta da IA: " ++ exn_str e)
  else Exn Exception_ (lit "Erro na comunicação com a API: " ++ exn_str e).

(** ** Example inputs *)

Definition quoted (s : string) : pystr := DQUOTE ++ lit s ++ DQUOTE.

(** The three objects
    [{"titulo":"A","image_prompt":"cat"},{"titulo":"B"},{"titulo":"C","image_prompt":"dog"}] *)
Definition example_json_items : pystr := Eval vm_compute in
  lit "{" ++ quoted "titulo" ++ lit ":" ++ quoted "A" ++ lit ","
  ++ quoted "image_prompt" ++ lit ":" ++ quoted "cat" ++ lit "},{"
  ++ quoted "titulo" ++ lit ":" ++ quoted "B" ++ lit "},{"
  ++ quoted "titulo" ++ lit ":" ++ quoted "C" ++ lit ","
  ++ quoted "image_prompt" ++ lit ":" ++ quoted "dog" ++ lit "}".

(** The JSON text of the array of these objects. *)
Definition example_json : pystr := Eval vm_compute in
  lit "[" ++ example_json_items ++ lit "]".

Definition example_dicts : list (gmap pystr pyval) :=
  [<[k_titulo := PStr (lit "A")]> (<[k_image_prompt := PStr (lit "cat")]> ∅);
   <[k_titulo := PStr (lit "B")]> ∅;
   <[k_titulo := PStr (lit "C")]> (<[k_image_prompt := PStr (lit "dog")]> ∅)].

(** The value [json.loads] decodes [example_json] to. *)
Definition example_ads : pyval := PList (PDict <$> example_dicts).

(** [json.loads] on the texts the examples send: the array above, the
    number 5, and texts that are no JSON at all. *)
Definition example_loads (text : pystr) : pystr + pyval :=
  if decide (text = example_json) then inr example_ads
  else if decide (text = lit "5") then inr (PInt 5)
  else inl (lit "Expecting value: line 1 column 1 (char 0)").

(** A client whose chat call replies [reply] and whose image call returns a
    url numbered by the calls made before it. *)
Definition example_client (reply : pystr) : OpenAI := {|
  chat_completions_create := fun _ _ => inr [Some reply];
  images_generate := fun h _ =>
    inr [Some (lit "https://images.example/" ++ [48 + N.of_nat (length h)])]
|}.

(** The client [c], except that the image call made after exactly [n]
    earlier calls raises [e]. *)
Definition failing_at (n : nat) (e : exn) (c : OpenAI) : OpenAI := {|
  chat_completions_create := chat_completions_create c;
  images_generate := fun h r =>
    if decide (length h = n) then inl e else images_generate c h r
|}.

Definition example_str (v : pyval) : pystr := lit "<" ++ type_name v ++ lit ">".

(** The body [{"oferta": " 50% off ", "cliente": "Loja", "nicho": "moda",
    "estilo_visual": "Minimalista", "generate_images": b}] *)
Definition example_body (b : bool) : pyval :=
  PDict (<[k_oferta := PStr (lit " 50% off ")]>
        (<[k_cliente := PStr (lit "Loja")]>
        (<[k_nicho := PStr (lit "moda")]>
        (<[k_estilo_visual := PStr (lit "Minimalista")]>
        (<[k_generate_images := PBool b]> ∅))))).

(** A process with the key set, before any call. *)
Definition example_world : world :=
  World (<[k_OPENAI_API_KEY := lit "sk-test"]> ∅) [] [].

(** The reply [example_json] inside a json fence, on lines of its own. *)
Definition fenced_reply : pystr :=
  lit "```json" ++ NL ++ example_json ++ NL ++ lit "```".

(** ** Fenced replies *)

(** Only characters that [strip] removes. *)
Definition all_space (s : pystr) : Prop := Forall (fun c => isspace c = true) s.

(** The text of a JSON array: an opening bracket and a closing one, with
    nothing but white space around them. *)
Definition json_array_text (p : pystr) : Prop :=
  ∃ wl body wr, p = wl ++ lit "[" ++ body ++ lit "]" ++ wr ∧ all_space wl ∧ all_space wr.

(** The two opening fence markers the code looks for. *)
Definition fence_opening (f : pystr) : Prop := f = lit "```json" ∨ f = lit "```".


(** The validated drafts of [example_ads]: their prompts are "cat", the
    empty text and "dog". *)
Definition example_drafts : list (gmap pystr pyval) := truncated_ad <$> example_dicts.

(** [example_json] on lines of its own. *)
Definition example_payload : pystr := NL ++ example_json ++ NL.

(** A reply that is no JSON. *)
Definition apology : pystr := lit "Desculpe, não posso ajudar.".

(** The body [{"oferta": "50% off", "nicho": "moda"}]: no cliente. *)
Definition body_without_cliente : pyval :=
  PDict (<[k_oferta := PStr (lit "50% off")]> (<[k_nicho := PStr (lit "moda")]> ∅)).

Definition quota_error : exn := Exn APIError (lit "quota exceeded").

(** ** More vocabulary: the body and the shapes of a reply *)

(** The four keys of the body that are read as text (lines 205-210). *)
Definition text_keys : list pystr := [k_oferta; k_cliente; k_nicho; k_estilo_visual].

Definition is_text (v : pyval) : bool :=
  match v with
  | PStr _ => true
  | _ => false
  end.

(** A body lines 205-210 cannot read: it is no JSON object, or one of the
    four text keys holds something that is not a text. *)
Definition unreadable (data : pyval) : bool :=
  match data with
  | PDict d =>
      existsb (fun k => match d !! k with
                        | Some v => negb (is_text v)
                        | None => false
                        end) text_keys
  | _ => true
  end.

(** The prefixes of lines 168 and 170. *)
Definition parse_prefix : pystr := Eval vm_compute in lit "Erro ao processar resposta da IA: ".
Definition api_prefix : pystr := Eval vm_compute in lit "Erro na comunicação com a API: ".

(** What [v[:n]] accepts: a text or a list. *)
Definition is_sliceable (v : pyval) : bool :=
  match v with
  | PStr _ | PList _ => true
  | _ => false
  end.

(** An item the validation accepts: a dict whose four fields, where
    present, are texts or lists. *)
Definition validates (ad : pyval) : bool :=
  match ad with
  | PDict d => forallb (fun kn : pystr * nat => is_sliceable (field d kn.1)) ad_fields
  | _ => false
  end.

(** The body of the examples with its texts padded and a key the endpoint
    does not know. *)
Definition padded_body : pyval :=
  PDict (<[k_oferta := PStr (lit "   50% off")]>
        (<[k_cliente := PStr (NL ++ lit "Loja" ++ NL)]>
        (<[k_nicho := PStr (lit "moda ")]>
        (<[k_estilo_visual := PStr (lit " Minimalista ")]>
        (<[lit "idioma" := PStr (lit "pt-BR")]> ∅))))).

(** A body whose estilo_visual is a number. *)
Definition body_with_numeric_style : pyval :=
  PDict (<[k_oferta := PStr (lit "50% off")]>
        (<[k_cliente := PStr (lit "Loja")]>
        (<[k_nicho := PStr (lit "moda")]>
        (<[k_estilo_visual := PInt 3]> ∅)))).

(** A process without the key. *)
Definition world_without_key : world := World ∅ [] [].

(** A client whose chat call raises [e]. *)
Definition chat_raising (e : exn) : OpenAI := {|
  chat_completions_create := fun _ _ => inl e;
  images_generate := fun _ _ => inr []
|}.

(** A client whose chat call returns the response [r]. *)
Definition chat_returning (r : list (option pystr)) : OpenAI := {|
  chat_completions_create := fun _ _ => inr r;
  images_generate := fun _ _ => inr []
|}.

(** A draft whose titulo is null. *)
Definition null_title_ad : pyval := PDict (<[k_titulo := PNone]> ∅).

(** The JSON text [[{"titulo": null}]] *)
Definition null_title_json : pystr := Eval vm_compute in
  lit "[{" ++ quoted "titulo" ++ lit ": null}]".

(** [json.loads] on the texts [{}] and [[{"titulo": null}]]. *)
Definition shape_loads (text : pystr) : pystr + pyval :=
  if decide (text = lit "{}") then inr (PDict ∅)
  else if decide (text = null_title_json) then inr (PList [null_title_ad])
       else inl (lit "Expecting value: line 1 column 1 (char 0)").

(** Nothing to trim on the left. *)
Definition trimmed_left (s : pystr) : Prop :=
  match s with
  | [] => True
  | c :: _ => isspace c = false
  end.

(** What every image request of the program asks for: one 1024x1024 image
    of standard quality from dall-e-3, with a prompt of at most [n]
    characters. *)
Definition standard_image_call (n : nat) (c : call) : Prop :=
  ∃ r, c = ImageCall r
       ∧ image_model r = lit "dall-e-3"
       ∧ image_size r = lit "1024x1024"
       ∧ image_quality r = lit "standard"
       ∧ image_n r = 1%Z
       ∧ (length (image_prompt r) ≤ n)%nat.

(** A client whose image call returns the response [r]. *)
Definition images_returning (r : result (list (option pystr))) : OpenAI := {|
  chat_completions_create := fun _ _ => inr [];
  images_generate := fun _ _ => r
|}.

(** A reply fenced with the tag in capitals. *)
Definition capital_tag_payload : pystr := lit "JSON" ++ example_payload.

(** ** The view with its request *)

(** generate_ads as the framework calls it.  [get_json] is what
    [request.get_json()] does at line 196: it returns the decoded body, or
    raises (a body that is no JSON, a content type that is not JSON).  The
    key is tested before the body is asked for (line 190). *)
Definition generate_ads_view (client : OpenAI) (json_loads : pystr -> pystr + pyval)
    (py_str : pyval -> pystr) (get_json : result pyval) : M response :=
  api_key ← getenv k_OPENAI_API_KEY;
  if negb (from_option nonempty false api_key)
  then mret (failure msg_no_api_key 500)
  else
    data ← lift get_json;
    generate_ads client json_loads py_str data.

(** One of the four fields of the draft is itself an object. *)
Definition holds_object (d : gmap pystr pyval) : bool :=
  existsb (fun kn : pystr * nat =>
             match field d kn.1 with
             | PDict _ => true
             | _ => false
             end) ad_fields.

(** What [request.get_json()] raises on a body that is no JSON. *)
Definition bad_request : exn :=
  Exn Exception_ (lit "400 Bad Request: Failed to decode JSON object").

(** * Properties *)

(** The prompt has the 1888 characters of the source. *)
Example SYSTEM_PROMPT_TEXT_length : length SYSTEM_PROMPT_TEXT = 1888%nat.
Proof. reflexivity. Qed.

(** ** Keys *)

Lemma CHAR_LIMITS_titulo : py_subscript CHAR_LIMITS k_titulo = inr 40%nat.
Proof. reflexivity. Qed.

Lemma CHAR_LIMITS_descricao : py_subscript CHAR_LIMITS k_descricao = inr 250%nat.
Proof. reflexivity. Qed.

Lemma CHAR_LIMITS_cta : py_subscript CHAR_LIMITS k_cta = inr 20%nat.
Proof. reflexivity. Qed.

Ltac keys_differ := unfold k_titulo, k_descricao, k_cta, k_image_prompt, k_image_url; discriminate.

Lemma titulo_ne_descricao : k_titulo ≠ k_descricao.
Proof. keys_differ. Qed.
Lemma titulo_ne_cta : k_titulo ≠ k_cta.
Proof. keys_differ. Qed.
Lemma titulo_ne_image_prompt : k_titulo ≠ k_image_prompt.
Proof. keys_differ. Qed.
Lemma titulo_ne_image_url : k_titulo ≠ k_image_url.
Proof. keys_differ. Qed.
Lemma descricao_ne_cta : k_descricao ≠ k_cta.
Proof. keys_differ. Qed.
Lemma descricao_ne_image_prompt : k_descricao ≠ k_image_prompt.
Proof. keys_differ. Qed.
Lemma descricao_ne_image_url : k_descricao ≠ k_image_url.
Proof. keys_differ. Qed.
Lemma cta_ne_image_prompt : k_cta ≠ k_image_prompt.
Proof. keys_differ. Qed.
Lemma cta_ne_image_url : k_cta ≠ k_image_url.
Proof. keys_differ. Qed.
Lemma image_prompt_ne_image_url : k_image_prompt ≠ k_image_url.
Proof. keys_differ. Qed.

Create HintDb keys.
#[export] Hint Resolve titulo_ne_descricao titulo_ne_cta titulo_ne_image_prompt
  titulo_ne_image_url descricao_ne_cta descricao_ne_image_prompt
  descricao_ne_image_url cta_ne_image_prompt cta_ne_image_url
  image_prompt_ne_image_url : keys.

(** ** validate_and_truncate_ads *)

(** The four slices of a dict, by hand. *)
Lemma validate_ad_dict d :
  validate_ad (PDict d) =
    (titulo ← py_slice_to 40 (field d k_titulo);
     descricao ← py_slice_to 250 (field d k_descricao);
     cta ← py_slice_to 20 (field d k_cta);
     image_prompt ← py_slice_to 200 (field d k_image_prompt);
     mret (<[k_titulo := titulo]> (<[k_descricao := descricao]>
            (<[k_cta := cta]> (<[k_image_prompt := image_prompt]> ∅))))).
Proof. reflexivity. Qed.

Lemma py_slice_to_inv n v r :
  py_slice_to n v = inr r →
  (∃ s, v = PStr s ∧ r = PStr (take n s)) ∨ (∃ l, v = PList l ∧ r = PList (take n l)).
Proof.
  destruct v; simpl; intros H; try discriminate; inversion H; eauto.
Qed.

Lemma py_slice_to_len n v r :
  py_slice_to n v = inr r → ∃ m, py_len r = Some m ∧ (m ≤ n)%nat.
Proof.
  intros [(s & -> & ->)|(l & -> & ->)]%py_slice_to_inv; simpl;
    eexists; (split; [reflexivity|]); rewrite length_take; lia.
Qed.

(** A slice of something already short enough changes nothing. *)
Lemma py_slice_to_short n v r m :
  py_slice_to n v = inr r → py_len r = Some m → py_slice_to n r = inr r.
Proof.
  intros [(s & -> & ->)|(l & -> & ->)]%py_slice_to_inv _; simpl;
    unfold slice_to; by rewrite take_take, Nat.min_id.
Qed.

Lemma result_bind_inr {A B} (m : result A) (f : A → result B) y :
  m ≫= f = inr y → ∃ x, m = inr x ∧ f x = inr y.
Proof. destruct m as [e|x]; simpl; [discriminate|eauto]. Qed.

(** The validated form of an item, when there is one: the item is a dict and
    each field is the slice of what [get] found. *)
Lemma validate_ad_inv ad o :
  validate_ad ad = inr o →
  ∃ d t de c p,
    ad = PDict d
    ∧ py_slice_to 40 (field d k_titulo) = inr t
    ∧ py_slice_to 250 (field d k_descricao) = inr de
    ∧ py_slice_to 20 (field d k_cta) = inr c
    ∧ py_slice_to 200 (field d k_image_prompt) = inr p
    ∧ o = <[k_titulo := t]> (<[k_descricao := de]>
            (<[k_cta := c]> (<[k_image_prompt := p]> ∅))).
Proof.
  destruct ad as [| | | | |l|d]; try (unfold validate_ad; simpl; discriminate).
  rewrite validate_ad_dict.
  intros (t & Ht & H)%result_bind_inr.
  apply result_bind_inr in H as (de & Hde & H).
  apply result_bind_inr in H as (c & Hc & H).
  apply result_bind_inr in H as (p & Hp & H).
  inversion H; subst. by exists d, t, de, c, p.
Qed.

Lemma validate_ad_keys ad o : validate_ad ad = inr o → dom o = draft_keys.
Proof.
  intros (d & t & de & c & p & _ & _ & _ & _ & _ & ->)%validate_ad_inv.
  unfold draft_keys. rewrite !dom_insert_L, dom_empty_L. set_solver.
Qed.

Lemma validate_ad_len ad o : validate_ad ad = inr o → len_within_limits o.
Proof.
  intros (d & t & de & c & p & _ & Ht & Hde & Hc & Hp & ->)%validate_ad_inv.
  apply py_slice_to_len in Ht as (m1 & ? & ?), Hde as (m2 & ? & ?),
    Hc as (m3 & ? & ?), Hp as (m4 & ? & ?).
  repeat split.
  - exists t, m1. by rewrite lookup_insert_eq.
  - exists de, m2. rewrite lookup_insert_ne, lookup_insert_eq by auto with keys. done.
  - exists c, m3. rewrite !lookup_insert_ne, lookup_insert_eq by auto with keys. done.
  - exists p, m4. rewrite !lookup_insert_ne, lookup_insert_eq by auto with keys. done.
Qed.

Lemma validate_each_Forall2 items out :
  validate_each items = inr out ↔ Forall2 (fun ad o => validate_ad ad = inr o) items out.
Proof.
  revert out. induction items as [|ad rest IH]; intros out; simpl.
  - split; [intros [= <-]; constructor | by inversion 1].
  - split.
    + intros (o & Ho & H)%result_bind_inr.
      apply result_bind_inr in H as (os & Hos & [= <-]).
      constructor; [done|by apply IH].
    + inversion 1 as [|? o ? os Ho Hos]; subst.
      apply IH in Hos. by rewrite Ho, Hos.
Qed.

Lemma is_ad_object_fields d k n :
  is_ad_object (PDict d) = true → (k, n) ∈ ad_fields →
  field d k = PStr (text_of d k).
Proof.
  unfold is_ad_object. rewrite forallb_forall. intros H Hin.
  apply list_elem_of_In, H in Hin. simpl in Hin.
  unfold field, text_of. by destruct (d !! k) as [[]|].
Qed.

(** On an ad object validation never raises: it cuts each text. *)
Lemma validate_ad_object d :
  is_ad_object (PDict d) = true → validate_ad (PDict d) = inr (truncated_ad d).
Proof.
  intros H. rewrite validate_ad_dict.
  rewrite (is_ad_object_fields d k_titulo 40), (is_ad_object_fields d k_descricao 250),
    (is_ad_object_fields d k_cta 20), (is_ad_object_fields d k_image_prompt 200);
    [reflexivity|done|unfold ad_fields; set_solver..].
Qed.

Lemma validate_objects items :
  Forall (fun v => is_ad_object v = true) items →
  ∃ ds, items = PDict <$> ds
        ∧ validate_and_truncate_ads (PList items) = inr (truncated_ad <$> ds).
Proof.
  unfold validate_and_truncate_ads. simpl.
  induction 1 as [|v rest Hv _ (ds & -> & IH)].
  - by exists [].
  - destruct v as [| | | | | |d]; try discriminate.
    exists (d :: ds). split; [done|]. simpl in *.
    by rewrite (validate_ad_object d Hv), IH.
Qed.

Lemma truncated_ad_lookup d k n :
  (k, n) ∈ ad_fields → truncated_ad d !! k = Some (PStr (take n (text_of d k))).
Proof.
  unfold ad_fields, truncated_ad. rewrite !elem_of_cons, elem_of_nil.
  intros [[= -> ->]|[[= -> ->]|[[= -> ->]|[[= -> ->]|[]]]]].
  - by rewrite lookup_insert_eq.
  - by rewrite lookup_insert_ne, lookup_insert_eq by auto with keys.
  - by rewrite !lookup_insert_ne, lookup_insert_eq by auto with keys.
  - by rewrite !lookup_insert_ne, lookup_insert_eq by auto with keys.
Qed.

Lemma truncated_ad_within_limits d : text_within_limits (truncated_ad d).
Proof.
  unfold text_within_limits, text_at_most.
  rewrite (truncated_ad_lookup d k_titulo 40), (truncated_ad_lookup d k_descricao 250),
    (truncated_ad_lookup d k_cta 20), (truncated_ad_lookup d k_image_prompt 200)
    by (unfold ad_fields; set_solver).
  repeat split; eexists; (split; [reflexivity|]); rewrite length_take; lia.
Qed.

(** C1. Whatever list of items validate_and_truncate_ads is given, every
    object it returns has a titulo of length at most 40, a descricao of at
    most 250, a cta of at most 20 and an image_prompt of at most 200; and on
    a list of ad objects (JSON objects whose four fields, where present, are
    texts, of any length) it does return, and the four fields of every
    returned object are texts within these budgets. *)
Theorem validated_ads_within_limits (items : list pyval) :
  (∀ out, validate_and_truncate_ads (PList items) = inr out →
          Forall len_within_limits out)
  ∧ (Forall (fun v => is_ad_object v = true) items →
     ∃ out, validate_and_truncate_ads (PList items) = inr out
            ∧ Forall text_within_limits out).
Proof.
  split.
  - intros out H. unfold validate_and_truncate_ads in H. simpl in H.
    apply validate_each_Forall2 in H.
    induction H as [|ad o ? ? Ho _ IH]; constructor; [|done].
    by apply validate_ad_len in Ho.
  - intros (ds & -> & ->)%validate_objects. eexists. split; [done|].
    apply Forall_fmap, Forall_true. intros d. apply truncated_ad_within_limits.
Qed.

Lemma validated_ads_within_limits_witness :
  ∃ out, validate_and_truncate_ads (PList [long_title_ad; short_ad]) = inr out
         ∧ Forall text_within_limits out.
Proof.
  apply (proj2 (validated_ads_within_limits [long_title_ad; short_ad])).
  repeat constructor.
Defined.

(** C2. When an ad object of the input lacks one of the keys titulo,
    descricao, cta, image_prompt, the object returned in its place has that
    key, and its value is the empty text: it is neither absent nor None. *)
Theorem missing_key_becomes_empty_text (items : list pyval) (i : nat)
    (d : gmap pystr pyval) (k : pystr) :
  Forall (fun v => is_ad_object v = true) items →
  items !! i = Some (PDict d) →
  k ∈ draft_keys →
  d !! k = None →
  ∃ out o, validate_and_truncate_ads (PList items) = inr out
           ∧ out !! i = Some o
           ∧ o !! k = Some (PStr []).
Proof.
  intros (ds & -> & ->)%validate_objects Hi Hk Hd.
  rewrite list_lookup_fmap in Hi.
  destruct (ds !! i) as [d'|] eqn:Hds; [|discriminate]. injection Hi as ->.
  exists (truncated_ad <$> ds), (truncated_ad d). split; [done|].
  split; [by rewrite list_lookup_fmap, Hds|].
  assert (∃ n, (k, n) ∈ ad_fields) as [n Hn].
  { unfold draft_keys in Hk. rewrite !elem_of_union, !elem_of_singleton in Hk.
    unfold ad_fields.
    destruct Hk as [[[-> | ->] | ->] | ->];
      [exists 40%nat | exists 250%nat | exists 20%nat | exists 200%nat]; set_solver. }
  rewrite (truncated_ad_lookup d k n Hn). unfold text_of. by rewrite Hd, take_nil.
Qed.

Lemma missing_key_becomes_empty_text_witness :
  ∃ out o, validate_and_truncate_ads (PList [short_ad; long_title_ad]) = inr out
           ∧ out !! 1%nat = Some o
           ∧ o !! k_cta = Some (PStr []).
Proof.
  eapply (missing_key_becomes_empty_text [short_ad; long_title_ad] 1 _ k_cta).
  - repeat constructor.
  - reflexivity.
  - unfold draft_keys. set_solver.
  - reflexivity.
Defined.

(** A validated ad is a fixed point of the validation. *)
Lemma validate_ad_fixed ad o : validate_ad ad = inr o → validate_ad (PDict o) = inr o.
Proof.
  intros (d & t & de & c & p & _ & Ht & Hde & Hc & Hp & ->)%validate_ad_inv.
  rewrite validate_ad_dict. unfold field.
  rewrite lookup_insert_eq.
  rewrite (lookup_insert_ne _ k_titulo k_descricao), lookup_insert_eq by auto with keys.
  rewrite (lookup_insert_ne _ k_titulo k_cta), (lookup_insert_ne _ k_descricao k_cta),
    lookup_insert_eq by auto with keys.
  rewrite (lookup_insert_ne _ k_titulo k_image_prompt),
    (lookup_insert_ne _ k_descricao k_image_prompt),
    (lookup_insert_ne _ k_cta k_image_prompt), lookup_insert_eq by auto with keys.
  simpl.
  destruct (py_slice_to_len _ _ _ Ht) as (m1 & H1 & _).
  destruct (py_slice_to_len _ _ _ Hde) as (m2 & H2 & _).
  destruct (py_slice_to_len _ _ _ Hc) as (m3 & H3 & _).
  destruct (py_slice_to_len _ _ _ Hp) as (m4 & H4 & _).
  rewrite (py_slice_to_short _ _ _ _ Ht H1). simpl.
  rewrite (py_slice_to_short _ _ _ _ Hde H2). simpl.
  rewrite (py_slice_to_short _ _ _ _ Hc H3). simpl.
  by rewrite (py_slice_to_short _ _ _ _ Hp H4).
Qed.

Lemma in_budget_is_ad_object v : in_budget v → is_ad_object v = true.
Proof.
  intros (d & -> & (t & Ht & _) & (de & Hde & _) & (c & Hc & _) & (p & Hp & _)).
  simpl. by rewrite Ht, Hde, Hc, Hp.
Qed.

(** C9. Validating the result of a validation gives that result again,
    whatever the input (a call that raises is not made twice); and on a list
    of ad objects whose four fields are texts within their budgets the
    validation returns, and every returned object carries, under each of the
    four keys, exactly the value of the input object at the same position. *)
Theorem validation_idempotent_and_exact_in_budget (ads : pyval) :
  validate_twice ads = validate_and_truncate_ads ads
  ∧ (∀ items, ads = PList items → Forall in_budget items →
       ∃ out, validate_and_truncate_ads ads = inr out
              ∧ ∀ i d, items !! i = Some (PDict d) →
                       ∃ o, out !! i = Some o
                            ∧ ∀ k, k ∈ draft_keys → o !! k = d !! k).
Proof.
  split.
  - unfold validate_twice.
    destruct (validate_and_truncate_ads ads) as [e|out] eqn:E; [done|]. simpl.
    unfold validate_and_truncate_ads in *. simpl.
    apply result_bind_inr in E as (items & _ & E).
    apply validate_each_Forall2 in E. apply validate_each_Forall2.
    clear ads. induction E as [|ad o ? ? Ho _ IH]; simpl; constructor; [|done].
    by apply validate_ad_fixed in Ho.
  - intros items -> Hb.
    assert (Forall (fun v => is_ad_object v = true) items) as Hobj.
    { eapply Forall_impl; [exact Hb|]. apply in_budget_is_ad_object. }
    apply validate_objects in Hobj as (ds & -> & ->).
    eexists. split; [done|]. intros i d Hi.
    rewrite list_lookup_fmap in Hi.
    destruct (ds !! i) as [d'|] eqn:Hds; [|discriminate]. injection Hi as ->.
    exists (truncated_ad d). split; [by rewrite list_lookup_fmap, Hds|].
    assert (in_budget (PDict d)) as (? & [= <-] & Ht & Hde & Hc & Hp).
    { rewrite Forall_forall in Hb. apply Hb, list_elem_of_fmap.
      exists d. split; [done|]. by eapply list_elem_of_lookup_2. }
    intros k Hk. unfold draft_keys in Hk.
    rewrite !elem_of_union, !elem_of_singleton in Hk.
    destruct Hk as [[[-> | ->] | ->] | ->].
    + destruct Ht as (s & Hs & Hlen).
      rewrite (truncated_ad_lookup d k_titulo 40) by (unfold ad_fields; set_solver).
      unfold text_of. rewrite Hs. by rewrite take_ge.
    + destruct Hde as (s & Hs & Hlen).
      rewrite (truncated_ad_lookup d k_descricao 250) by (unfold ad_fields; set_solver).
      unfold text_of. rewrite Hs. by rewrite take_ge.
    + destruct Hc as (s & Hs & Hlen).
      rewrite (truncated_ad_lookup d k_cta 20) by (unfold ad_fields; set_solver).
      unfold text_of. rewrite Hs. by rewrite take_ge.
    + destruct Hp as (s & Hs & Hlen).
      rewrite (truncated_ad_lookup d k_image_prompt 200) by (unfold ad_fields; set_solver).
      unfold text_of. rewrite Hs. by rewrite take_ge.
Qed.

Lemma validation_idempotent_and_exact_in_budget_witness :
  validate_twice (PList [short_ad; short_ad])
  = validate_and_truncate_ads (PList [short_ad; short_ad])
  ∧ ∃ out, validate_and_truncate_ads (PList [short_ad; short_ad]) = inr out
           ∧ ∀ i d, [short_ad; short_ad] !! i = Some (PDict d) →
                    ∃ o, out !! i = Some o ∧ ∀ k, k ∈ draft_keys → o !! k = d !! k.
Proof.
  destruct (validation_idempotent_and_exact_in_budget (PList [short_ad; short_ad]))
    as [Htwice Hexact].
  split; [exact Htwice|]. apply Hexact; [reflexivity|].
  assert (in_budget short_ad) as Hshort.
  { eexists. split; [reflexivity|].
    repeat split; eexists; (split; [reflexivity|vm_compute; lia]). }
  repeat constructor; exact Hshort.
Defined.

(** ** The effects *)

Section Runs.

Variable client : OpenAI.
Variable json_loads : pystr -> pystr + pyval.
Variable py_str : pyval -> pystr.

(** generate_image_with_dalle in one step: it makes its one call and
    returns; no outcome of the call makes it raise. *)
Lemma generate_image_with_dalle_run prompt style w :
  generate_image_with_dalle client py_str prompt style w
  = (inr (url_of (images_generate client (calls w) (dalle_request py_str prompt style))),
     World (environ w)
           (calls w ++ [ImageCall (dalle_request py_str prompt style)])
           (log_of (images_generate client (calls w) (dalle_request py_str prompt style))
                   (stdout w))).
Proof.
  unfold generate_image_with_dalle, try_except, image_create, mbind, M_bind, lift.
  destruct (images_generate client (calls w) _) as [e|[|[url|] rest]]; reflexivity.
Qed.

Lemma M_bind_run {A B} (m : M A) (f : A → M B) w x w' :
  m w = (inr x, w') → (m ≫= f) w = f x w'.
Proof. unfold mbind, M_bind. by intros ->. Qed.

(** The loop over validated drafts: it never raises, makes exactly the
    calls of [image_calls], and stores under image_url what the call of
    each draft came to. *)
Lemma attach_images_run style ads w :
  Forall (fun ad : gmap pystr pyval => is_Some (ad !! k_image_prompt)) ads →
  ∃ out w',
    attach_images client py_str style ads w = (inr out, w')
    ∧ environ w' = environ w
    ∧ calls w' = calls w ++ image_calls py_str style ads
    ∧ length out = length ads
    ∧ ∀ i ad, ads !! i = Some ad →
        out !! i = Some (with_image
          (if truthy (prompt_of ad)
           then url_of (images_generate client
                          (calls w ++ image_calls py_str style (take i ads))
                          (dalle_request py_str (prompt_of ad) style))
           else PNone) ad).
Proof.
  intros Hads. revert w.
  induction Hads as [|ad rest [p Hp] _ IH]; intros w.
  - exists [], w. simpl. rewrite app_nil_r. repeat split; [done..|]. by intros i ad.
  - cbn [attach_images image_calls].
    assert (prompt_of ad = p) as Hprompt by (unfold prompt_of, field; by rewrite Hp).
    set (url := if truthy (prompt_of ad)
                then url_of (images_generate client (calls w)
                               (dalle_request py_str (prompt_of ad) style))
                else PNone).
    set (w1 := if truthy (prompt_of ad)
               then World (environ w)
                      (calls w ++ [ImageCall (dalle_request py_str (prompt_of ad) style)])
                      (log_of (images_generate client (calls w)
                                 (dalle_request py_str (prompt_of ad) style)) (stdout w))
               else w).
    destruct (IH w1) as (out & w' & Hrun & Henv & Hcalls & Hlen & Hout).
    exists (with_image url ad :: out), w'.
    assert (environ w1 = environ w) as Henv1 by (unfold w1; by destruct (truthy _)).
    assert (calls w1 = calls w ++
              (if truthy (prompt_of ad)
               then [ImageCall (dalle_request py_str (prompt_of ad) style)] else []))
      as Hcalls1.
    { unfold w1. destruct (truthy _); [done|]. by rewrite app_nil_r. }
    split; [|split; [congruence|split; [|split]]].
    + unfold mbind at 1, M_bind at 1, lift at 1. simpl.
      fold (prompt_of ad).
      assert ((if truthy (prompt_of ad)
               then image_url ← generate_image_with_dalle client py_str (prompt_of ad) style;
                    mret (<[k_image_url:=image_url]> ad)
               else mret (<[k_image_url:=PNone]> ad)) w
              = (inr (<[k_image_url:=url]> ad), w1)) as Hstep.
      { unfold url, w1. destruct (truthy (prompt_of ad)); [|done].
        unfold mbind, M_bind. by rewrite generate_image_with_dalle_run. }
      rewrite (M_bind_run _ _ _ _ _ Hstep).
      unfold mbind at 1, M_bind at 1, lift at 1, py_del.
      rewrite lookup_insert_ne, Hp by auto with keys.
      rewrite (M_bind_run _ _ _ _ _ Hrun). done.
    + by rewrite Hcalls, Hcalls1, app_assoc.
    + simpl. by rewrite Hlen.
    + intros [|i] ad' Hi; simpl in Hi.
      * injection Hi as <-. simpl. by rewrite app_nil_r.
      * specialize (Hout i ad' Hi). rewrite Hcalls1, <- app_assoc in Hout.
        exact Hout.
Qed.

End Runs.

Section Endpoint.

Variable client : OpenAI.
Variable json_loads : pystr -> pystr + pyval.
Variable py_str : pyval -> pystr.

(** generate_ads_with_openai in one step: the chat call is made, and what
    it returns is decoded and validated; whatever is raised on the way is
    raised again in one of two forms. *)
Lemma generate_ads_with_openai_run oferta cliente nicho estilo_visual w :
  generate_ads_with_openai client json_loads oferta cliente nicho estilo_visual w
  = (match chat_completions_create client (calls w)
             (gpt_request oferta cliente nicho estilo_visual)
           ≫= ads_of_response json_loads with
     | inl e => inl (reraised e)
     | inr ads => inr ads
     end,
     after_chat w (gpt_request oferta cliente nicho estilo_visual)).
Proof.
  unfold generate_ads_with_openai, try_except, chat_create, mbind at 1, M_bind, lift.
  destruct (chat_completions_create client (calls w) _) as [e|response]; simpl.
  - unfold reraised, raise. by destruct (is_JSONDecodeError e).
  - destruct (ads_of_response json_loads response) as [e|ads]; [|done].
    unfold reraised, raise. by destruct (is_JSONDecodeError e).
Qed.

Lemma ads_of_response_keys response ads :
  ads_of_response json_loads response = inr ads →
  Forall (fun o : gmap pystr pyval => dom o = draft_keys) ads.
Proof.
  unfold ads_of_response.
  intros (content & _ & H)%result_bind_inr.
  apply result_bind_inr in H as (v & _ & H).
  unfold validate_and_truncate_ads in H.
  apply result_bind_inr in H as (items & _ & H).
  apply validate_each_Forall2 in H.
  induction H as [|ad o ? ? Ho _ IH]; constructor; [|done].
  by apply validate_ad_keys in Ho.
Qed.

(** The drafts generate_ads_with_openai returns are validated ones, and
    the one call it made is the chat call. *)
Lemma generate_ads_with_openai_returns oferta cliente nicho estilo_visual w ads w1 :
  generate_ads_with_openai client json_loads oferta cliente nicho estilo_visual w
  = (inr ads, w1) →
  w1 = after_chat w (gpt_request oferta cliente nicho estilo_visual)
  ∧ Forall (fun o : gmap pystr pyval => dom o = draft_keys) ads.
Proof.
  rewrite generate_ads_with_openai_run. intros [= H <-]. split; [done|].
  destruct (chat_completions_create client (calls w) _) as [e|response];
    [discriminate|]. simpl in H.
  destruct (ads_of_response json_loads response) as [e|ads'] eqn:E; [discriminate|].
  injection H as <-. by eapply ads_of_response_keys.
Qed.

Lemma nonempty_true (s : pystr) : s ≠ [] → nonempty s = true.
Proof. by destruct s. Qed.

(** A request that passes the checks reaches the generation stage. *)
Lemma generate_ads_accepted data w oferta cliente nicho estilo_visual generate_images :
  accepted w data oferta cliente nicho estilo_visual generate_images →
  generate_ads client json_loads py_str data w
  = generation_stage client json_loads py_str
      oferta cliente nicho estilo_visual generate_images w.
Proof.
  intros ((key & Hkey & Hne) & (Hd & Ho & Hc & Hn & He & Hg) & Hno & Hnc & Hnn).
  unfold generate_ads, getenv, mbind at 1, M_bind at 1. rewrite Hkey. simpl.
  rewrite (nonempty_true key Hne), Hd. simpl.
  unfold mbind, M_bind, lift. rewrite Ho, Hc, Hn, He, Hg.
  by rewrite (nonempty_true _ Hno), (nonempty_true _ Hnc), (nonempty_true _ Hnn).
Qed.

Lemma without_image_lookups ad :
  without_image ad !! k_image_url = Some PNone
  ∧ without_image ad !! k_image_prompt = None
  ∧ ∀ k, k ≠ k_image_url → k ≠ k_image_prompt → without_image ad !! k = ad !! k.
Proof.
  unfold without_image. split; [by rewrite lookup_insert_eq|]. split.
  - rewrite lookup_insert_ne by auto with keys.
    destruct (ad !! k_image_prompt) eqn:E; [by rewrite lookup_delete_eq|done].
  - intros k H1 H2. rewrite lookup_insert_ne by done.
    destruct (ad !! k_image_prompt); [by rewrite lookup_delete_ne|done].
Qed.

(** C3. When the request is accepted, generate_images is false (or
    anything else that counts as false) and the copy generation returns
    its drafts, the endpoint answers 200 with one result for each draft, in
    order; every result has image_url None and no image_prompt key, and
    agrees with its draft on every other key; the world is left as the copy
    generation left it, with the chat call as the only call made: no image
    is requested. *)
Theorem no_images_when_disabled data w oferta cliente nicho estilo_visual
    generate_images ads w1 :
  accepted w data oferta cliente nicho estilo_visual generate_images →
  truthy generate_images = false →
  generate_ads_with_openai client json_loads oferta cliente nicho estilo_visual w
  = (inr ads, w1) →
  ∃ results,
    generate_ads client json_loads py_str data w = (inr (success results), w1)
    ∧ calls w1 = calls w ++ [ChatCall (gpt_request oferta cliente nicho estilo_visual)]
    ∧ Forall2 (fun (ad r : gmap pystr pyval) =>
                 r !! k_image_url = Some PNone
                 ∧ r !! k_image_prompt = None
                 ∧ ∀ k, k ≠ k_image_url → k ≠ k_image_prompt → r !! k = ad !! k)
              ads results.
Proof.
  intros Hacc Hg Hcopy. exists (without_image <$> ads).
  rewrite (generate_ads_accepted _ _ _ _ _ _ _ Hacc).
  split; [|split].
  - unfold generation_stage, try_except, mbind at 1, M_bind at 1.
    rewrite Hcopy, Hg. reflexivity.
  - by apply generate_ads_with_openai_returns in Hcopy as [-> _].
  - apply Forall2_fmap_r, Forall_Forall2_diag, Forall_true.
    intros ad. apply without_image_lookups.
Qed.

(** C4. When the request is accepted, generate_images is true (or
    anything else that counts as true) and the copy generation returns its
    drafts, the endpoint answers 200 with one result for each draft, in
    order.  The calls made after the chat call are the image calls of the
    drafts whose image_prompt is not empty, in the order of the drafts,
    each with the prompt and the estilo_visual of the request.  The result
    of a draft is the draft with image_prompt removed and image_url set: to
    None when the prompt is empty, and otherwise to what
    generate_image_with_dalle returns for that prompt and style once the
    calls of the drafts before it have been made. *)
Theorem images_attached_in_order data w oferta cliente nicho estilo_visual
    generate_images ads w1 :
  accepted w data oferta cliente nicho estilo_visual generate_images →
  truthy generate_images = true →
  generate_ads_with_openai client json_loads oferta cliente nicho estilo_visual w
  = (inr ads, w1) →
  ∃ results w2,
    generate_ads client json_loads py_str data w = (inr (success results), w2)
    ∧ calls w2 = calls w1 ++ image_calls py_str estilo_visual ads
    ∧ length results = length ads
    ∧ ∀ i ad, ads !! i = Some ad →
        ∃ url,
          results !! i = Some (delete k_image_prompt (<[k_image_url := url]> ad))
          ∧ (truthy (prompt_of ad) = false → url = PNone)
          ∧ (truthy (prompt_of ad) = true →
             ∀ wi, calls wi = calls w1 ++ image_calls py_str estilo_visual (take i ads) →
                   (generate_image_with_dalle client py_str
                      (prompt_of ad) estilo_visual wi).1 = inr url).
Proof.
  intros Hacc Hg Hcopy.
  destruct (generate_ads_with_openai_returns _ _ _ _ _ _ _ Hcopy) as [_ Hkeys].
  destruct (attach_images_run client py_str estilo_visual ads w1)
    as (results & w2 & Hrun & _ & Hcalls & Hlen & Hres).
  { eapply Forall_impl; [exact Hkeys|]. intros ad Hdom. simpl in Hdom.
    apply elem_of_dom. rewrite Hdom. unfold draft_keys. set_solver. }
  exists results, w2.
  rewrite (generate_ads_accepted _ _ _ _ _ _ _ Hacc).
  split; [|split; [done|split; [done|]]].
  - unfold generation_stage, try_except, mbind at 1, M_bind at 1.
    rewrite Hcopy, Hg. unfold mbind, M_bind. by rewrite Hrun.
  - intros i ad Hi. specialize (Hres i ad Hi). eexists. split; [exact Hres|].
    split; [by intros ->|]. intros -> wi Hwi.
    by rewrite generate_image_with_dalle_run, Hwi.
Qed.

(** C7, as the code has it.  When the request is accepted, the chat call
    returns a reply with a text, and [json.loads] rejects what is left of
    that text once the fence markers are cut off, the endpoint answers 422
    with success false and, as error, the decoder's message behind the
    prefix of line 168.  (A reply that decodes to a value of the wrong
    shape is not answered this way.) *)
Theorem undecodable_reply_is_422 data w oferta cliente nicho estilo_visual
    generate_images content rest detail :
  accepted w data oferta cliente nicho estilo_visual generate_images →
  chat_completions_create client (calls w)
    (gpt_request oferta cliente nicho estilo_visual) = inr (Some content :: rest) →
  json_loads (response_text_of content) = inl detail →
  generate_ads client json_loads py_str data w
  = (inr (failure (lit "Erro ao processar resposta da IA: " ++ detail) 422),
     after_chat w (gpt_request oferta cliente nicho estilo_visual)).
Proof.
  intros Hacc Hchat Hloads.
  rewrite (generate_ads_accepted _ _ _ _ _ _ _ Hacc).
  unfold generation_stage, try_except, mbind at 1, M_bind at 1.
  rewrite generate_ads_with_openai_run, Hchat.
  unfold ads_of_response, loads. simpl. by rewrite Hloads.
Qed.

(** C8, as the code has it.  When the API key is set, the body is a JSON
    object that is not empty, and its oferta, cliente, nicho and
    estilo_visual, where present, are texts, then a request in which one of
    oferta, cliente, nicho is missing or blank is answered 400 with success
    false and the message of the first such field in the order oferta,
    cliente, nicho; the world is unchanged, so no upstream call was made. *)
Theorem blank_required_field_is_400 data w oferta cliente nicho estilo_visual
    generate_images :
  configured w →
  reads data oferta cliente nicho estilo_visual generate_images →
  oferta = [] ∨ cliente = [] ∨ nicho = [] →
  ∃ msg,
    generate_ads client json_loads py_str data w = (inr (failure msg 400), w)
    ∧ (oferta = [] → msg = msg_oferta)
    ∧ (oferta ≠ [] → cliente = [] → msg = msg_cliente)
    ∧ (oferta ≠ [] → cliente ≠ [] → msg = msg_nicho).
Proof.
  intros (key & Hkey & Hne) (Hd & Ho & Hc & Hn & He & Hg) Hblank.
  unfold generate_ads, getenv, mbind at 1, M_bind at 1. rewrite Hkey. simpl.
  rewrite (nonempty_true key Hne), Hd. simpl.
  unfold mbind, M_bind, lift. rewrite Ho, Hc, Hn, He, Hg.
  destruct oferta as [|o1 o]; simpl.
  { exists msg_oferta. by repeat split. }
  destruct cliente as [|c1 c]; simpl.
  { exists msg_cliente. by repeat split. }
  destruct nicho as [|n1 n]; simpl.
  { exists msg_nicho. by repeat split. }
  by destruct Hblank as [?|[?|?]].
Qed.

Lemma with_image_keys (url : pyval) (ad : gmap pystr pyval) :
  dom ad = draft_keys → dom (with_image url ad) = result_keys.
Proof.
  intros H. unfold with_image. rewrite dom_delete_L, dom_insert_L, H.
  unfold draft_keys, result_keys.
  pose proof titulo_ne_image_prompt. pose proof descricao_ne_image_prompt.
  pose proof cta_ne_image_prompt. pose proof image_prompt_ne_image_url.
  set_solver.
Qed.

Lemma without_image_keys (ad : gmap pystr pyval) :
  dom ad = draft_keys → dom (without_image ad) = result_keys.
Proof.
  intros H. unfold without_image.
  assert (is_Some (ad !! k_image_prompt)) as [p Hp].
  { apply elem_of_dom. rewrite H. unfold draft_keys. set_solver. }
  rewrite Hp, dom_insert_L, dom_delete_L, H.
  unfold draft_keys, result_keys.
  pose proof titulo_ne_image_prompt. pose proof descricao_ne_image_prompt.
  pose proof cta_ne_image_prompt. pose proof image_prompt_ne_image_url.
  set_solver.
Qed.

Lemma has_prompt_of_keys (ads : list (gmap pystr pyval)) :
  Forall (fun o : gmap pystr pyval => dom o = draft_keys) ads →
  Forall (fun ad : gmap pystr pyval => is_Some (ad !! k_image_prompt)) ads.
Proof.
  intros Hkeys. eapply Forall_impl; [exact Hkeys|]. intros ad Hdom. simpl in Hdom.
  apply elem_of_dom. rewrite Hdom. unfold draft_keys. set_solver.
Qed.

(** The loop over validated drafts returns ads with the keys of a result. *)
Lemma attach_images_keys style ads w :
  Forall (fun o : gmap pystr pyval => dom o = draft_keys) ads →
  ∃ out w', attach_images client py_str style ads w = (inr out, w')
            ∧ Forall (fun r : gmap pystr pyval => dom r = result_keys) out.
Proof.
  intros Hkeys.
  destruct (attach_images_run client py_str style ads w (has_prompt_of_keys _ Hkeys))
    as (out & w' & Hrun & _ & _ & Hlen & Hout).
  exists out, w'. split; [done|].
  apply Forall_lookup. intros i r Hr.
  destruct (ads !! i) as [ad|] eqn:Hi.
  - rewrite (Hout i ad Hi) in Hr. injection Hr as <-.
    apply with_image_keys. by eapply (proj1 (Forall_lookup _ _) Hkeys).
  - apply lookup_ge_None in Hi. apply lookup_lt_Some in Hr. lia.
Qed.

(** An answer with status 200 is the success answer, and its ads have the
    keys of a result. *)
Lemma generate_ads_200 data w resp w' :
  generate_ads client json_loads py_str data w = (inr resp, w') →
  status resp = 200%Z →
  ∃ results, resp = success results
             ∧ Forall (fun r : gmap pystr pyval => dom r = result_keys) results.
Proof.
  unfold generate_ads, getenv, mbind at 1, M_bind at 1. simpl.
  destruct (from_option nonempty false _); simpl;
    [|intros [= <- _]; discriminate].
  destruct (truthy data); simpl; [|intros [= <- _]; discriminate].
  unfold mbind at 1 2 3 4 5, M_bind, lift.
  destruct (field_text data k_oferta) as [|oferta]; [discriminate|].
  destruct (field_text data k_cliente) as [|cliente]; [discriminate|].
  destruct (field_text data k_nicho) as [|nicho]; [discriminate|].
  destruct (field_text data k_estilo_visual) as [|estilo_visual]; [discriminate|].
  destruct (py_get data k_generate_images _) as [|generate_images]; [discriminate|].
  destruct (nonempty oferta); simpl; [|intros [= <- _]; discriminate].
  destruct (nonempty cliente); simpl; [|intros [= <- _]; discriminate].
  destruct (nonempty nicho); simpl; [|intros [= <- _]; discriminate].
  unfold generation_stage, try_except, mbind at 1, M_bind at 1.
  destruct (generate_ads_with_openai _ _ _ _ _ _ w) as [[e|ads] w1] eqn:Hcopy.
  { destruct (is_ValueError e); intros [= <- _]; discriminate. }
  apply generate_ads_with_openai_returns in Hcopy as [_ Hkeys].
  destruct (truthy generate_images).
  - destruct (attach_images_keys estilo_visual ads w1 Hkeys)
      as (out & w2 & Hrun & Hout).
    unfold mbind, M_bind. rewrite Hrun. intros [= <- _] _. by exists out.
  - intros [= <- _] _. exists (without_image <$> ads). split; [done|].
    apply Forall_fmap. eapply Forall_impl; [exact Hkeys|].
    intros ad. apply without_image_keys.
Qed.

(** C10. Given a list of n items, of any n, validate_and_truncate_ads
    returns, when it returns, n objects that each have exactly the keys
    titulo, descricao, cta and image_prompt; on ad objects it does return,
    and the object at each position is the input object of that position
    cut to the budgets.  So the loop that deletes image_prompt from every
    validated draft never raises, and every ad of an answer with status 200
    has exactly the keys titulo, descricao, cta and image_url. *)
Theorem validated_shape_and_result_keys :
  (∀ items out,
     validate_and_truncate_ads (PList items) = inr out →
     length out = length items
     ∧ Forall (fun o : gmap pystr pyval => dom o = draft_keys) out)
  ∧ (∀ items,
       Forall (fun v => is_ad_object v = true) items →
       ∃ out, validate_and_truncate_ads (PList items) = inr out
              ∧ ∀ i d, items !! i = Some (PDict d) →
                       out !! i = Some (truncated_ad d))
  ∧ (∀ style ads w,
       Forall (fun o : gmap pystr pyval => dom o = draft_keys) ads →
       ∃ out w', attach_images client py_str style ads w = (inr out, w')
                 ∧ Forall (fun r : gmap pystr pyval => dom r = result_keys) out)
  ∧ (∀ data w resp w',
       generate_ads client json_loads py_str data w = (inr resp, w') →
       status resp = 200%Z →
       ∃ results, resp = success results
                  ∧ Forall (fun r : gmap pystr pyval => dom r = result_keys) results).
Proof.
  split; [|split; [|split]].
  - intros items out H. unfold validate_and_truncate_ads in H. simpl in H.
    apply validate_each_Forall2 in H. split; [symmetry; by eapply Forall2_length|].
    induction H as [|ad o ? ? Ho _ IH]; constructor; [|done].
    by apply validate_ad_keys in Ho.
  - intros items (ds & -> & ->)%validate_objects. eexists. split; [done|].
    intros i d Hi. rewrite list_lookup_fmap in Hi. rewrite list_lookup_fmap.
    destruct (ds !! i) as [d'|]; [|discriminate]. by injection Hi as ->.
  - apply attach_images_keys.
  - apply generate_ads_200.
Qed.

End Endpoint.

(** ** The properties at work *)

Lemma example_accepted b :
  accepted example_world (example_body b)
           (lit "50% off") (lit "Loja") (lit "moda") (lit "Minimalista") (PBool b).
Proof.
  split; [|split].
  - exists (lit "sk-test"). split; [reflexivity|discriminate].
  - destruct b; repeat split; reflexivity.
  - repeat split; discriminate.
Defined.

Lemma no_images_when_disabled_witness :
  ∃ ads w1,
    generate_ads_with_openai (example_client fenced_reply) example_loads
      (lit "50% off") (lit "Loja") (lit "moda") (lit "Minimalista") example_world
    = (inr ads, w1)
    ∧ ∃ results,
        generate_ads (example_client fenced_reply) example_loads example_str
          (example_body false) example_world = (inr (success results), w1)
        ∧ calls w1 = calls example_world
                     ++ [ChatCall (gpt_request (lit "50% off") (lit "Loja")
                                               (lit "moda") (lit "Minimalista"))]
        ∧ Forall2 (fun (ad r : gmap pystr pyval) =>
                     r !! k_image_url = Some PNone
                     ∧ r !! k_image_prompt = None
                     ∧ ∀ k, k ≠ k_image_url → k ≠ k_image_prompt → r !! k = ad !! k)
                  ads results.
Proof.
  eexists _, _.
  assert (generate_ads_with_openai (example_client fenced_reply) example_loads
            (lit "50% off") (lit "Loja") (lit "moda") (lit "Minimalista") example_world
          = _) as Hcopy by (vm_compute; reflexivity).
  split; [exact Hcopy|].
  exact (no_images_when_disabled (example_client fenced_reply) example_loads example_str
           _ _ _ _ _ _ _ _ _ (example_accepted false) eq_refl Hcopy).
Defined.

(** ** Failures of the image call *)

Section Isolation.

Variable py_str : pyval -> pystr.

Lemma image_calls_app (style : pystr) (a b : list (gmap pystr pyval)) :
  image_calls py_str style (a ++ b)
  = image_calls py_str style a ++ image_calls py_str style b.
Proof.
  induction a as [|ad a IH]; simpl; [done|]. by rewrite IH, app_assoc.
Qed.

Lemma image_calls_take_le (style : pystr) (ads : list (gmap pystr pyval)) (i j : nat) :
  (i ≤ j)%nat →
  (length (image_calls py_str style (take i ads))
   ≤ length (image_calls py_str style (take j ads)))%nat.
Proof.
  intros Hij. rewrite <- (take_drop i (take j ads)), take_take, Nat.min_l by done.
  rewrite image_calls_app, length_app. lia.
Qed.

(** A draft with a prompt adds a call: the drafts after it see a longer
    history. *)
Lemma image_calls_take_lt (style : pystr) (ads : list (gmap pystr pyval)) (i j : nat)
    (ad : gmap pystr pyval) :
  (i < j)%nat → ads !! i = Some ad → truthy (prompt_of ad) = true →
  (length (image_calls py_str style (take i ads))
   < length (image_calls py_str style (take j ads)))%nat.
Proof.
  intros Hij Hi Hp.
  pose proof (image_calls_take_le style ads (S i) j Hij) as Hle.
  rewrite (take_S_r _ _ _ Hi), image_calls_app, length_app in Hle.
  simpl in Hle. rewrite Hp in Hle. simpl in Hle. lia.
Qed.

Variables client client' : OpenAI.

(** C5. generate_image_with_dalle never raises: whatever its upstream call
    does, it returns, and it returns None when the call raised.  And when
    two upstream services differ only in what they do with the image call
    of draft [k], which raises in the second, the loop over the drafts
    completes with both, draft [k] gets None in the second, and every other
    draft gets the same result in both. *)
Theorem image_failure_is_caught_and_isolated (style : pystr)
    (ads : list (gmap pystr pyval)) (w : world) (k : nat) (ad_k : gmap pystr pyval)
    (e : exn) :
  Forall (fun o : gmap pystr pyval => dom o = draft_keys) ads →
  ads !! k = Some ad_k →
  truthy (prompt_of ad_k) = true →
  (∀ h r, length h ≠ length (calls w ++ image_calls py_str style (take k ads)) →
          images_generate client' h r = images_generate client h r) →
  images_generate client' (calls w ++ image_calls py_str style (take k ads))
    (dalle_request py_str (prompt_of ad_k) style) = inl e →
  (∀ prompt w0,
     ∃ url w0',
       generate_image_with_dalle client' py_str prompt style w0 = (inr url, w0')
       ∧ ∀ e0, images_generate client' (calls w0) (dalle_request py_str prompt style)
               = inl e0 → url = PNone)
  ∧ ∃ out out' w1 w1',
      attach_images client py_str style ads w = (inr out, w1)
      ∧ attach_images client' py_str style ads w = (inr out', w1')
      ∧ out' !! k = Some (with_image PNone ad_k)
      ∧ ∀ i, i ≠ k → out' !! i = out !! i.
Proof.
  intros Hkeys Hk Hpk Hagree Hfail. split.
  - intros prompt w0. eexists _, _.
    split; [apply generate_image_with_dalle_run|]. by intros e0 ->.
  - assert (Forall (fun ad : gmap pystr pyval => is_Some (ad !! k_image_prompt)) ads)
      as Hprompts.
    { eapply Forall_impl; [exact Hkeys|]. intros ad Hdom. simpl in Hdom.
      apply elem_of_dom. rewrite Hdom. unfold draft_keys. set_solver. }
    destruct (attach_images_run client py_str style ads w Hprompts)
      as (out & w1 & Hrun & _ & _ & Hlen & Hout).
    destruct (attach_images_run client' py_str style ads w Hprompts)
      as (out' & w1' & Hrun' & _ & _ & Hlen' & Hout').
    exists out, out', w1, w1'. split; [done|]. split; [done|]. split.
    + by rewrite (Hout' k ad_k Hk), Hpk, Hfail.
    + intros i Hik. destruct (ads !! i) as [ad|] eqn:Hi.
      * rewrite (Hout i ad Hi), (Hout' i ad Hi).
        destruct (truthy (prompt_of ad)) eqn:Hp; [|done].
        rewrite Hagree; [done|]. rewrite !length_app.
        destruct (Nat.lt_total i k) as [Hlt|[->|Hgt]]; [|done|].
        -- pose proof (image_calls_take_lt style ads i k ad Hlt Hi Hp). lia.
        -- pose proof (image_calls_take_lt style ads k i ad_k Hgt Hk Hpk). lia.
      * apply lookup_ge_None in Hi.
        rewrite (proj2 (lookup_ge_None out i)), (proj2 (lookup_ge_None out' i)); [done|lia..].
Qed.

End Isolation.

(** ** Trimming and fences *)

Section Fences.

Lemma lstrip_spaces ws s : all_space ws → lstrip (ws ++ s) = lstrip s.
Proof. induction 1 as [|c ws Hc _ IH]; simpl; [done|]. by rewrite Hc. Qed.

Lemma rstrip_spaces ws s : all_space ws → rstrip (s ++ ws) = rstrip s.
Proof.
  intros H. unfold rstrip. rewrite reverse_app, lstrip_spaces; [done|].
  by apply Forall_reverse.
Qed.

Lemma rstrip_snoc s c : isspace c = false → rstrip (s ++ [c]) = s ++ [c].
Proof.
  intros Hc. unfold rstrip. rewrite reverse_app. simpl. rewrite Hc.
  by rewrite reverse_cons, reverse_involutive.
Qed.

(** Trimming stops at the first and at the last character that is no
    white space. *)
Lemma strip_between wl a mid b wr :
  all_space wl → all_space wr → isspace a = false → isspace b = false →
  strip (wl ++ a :: mid ++ b :: wr) = a :: mid ++ [b].
Proof.
  intros Hwl Hwr Ha Hb. unfold strip. rewrite lstrip_spaces by done.
  simpl. rewrite Ha.
  change (a :: mid ++ b :: wr) with ((a :: mid) ++ [b] ++ wr).
  rewrite app_assoc, rstrip_spaces by done.
  by rewrite rstrip_snoc.
Qed.

Lemma startswith_cons s p a b :
  startswith (b :: s) (a :: p) = (a =? b) && startswith s p.
Proof. reflexivity. Qed.

Lemma startswith_app pre s : startswith (pre ++ s) pre = true.
Proof. induction pre as [|c pre IH]; simpl; [done|]. by rewrite N.eqb_refl, IH. Qed.

Lemma endswith_app s suf : endswith (s ++ suf) suf = true.
Proof. unfold endswith. rewrite reverse_app. apply startswith_app. Qed.

Lemma slice_to_neg_app (s suf : pystr) :
  slice_to_neg (length suf) (s ++ suf) = s.
Proof.
  unfold slice_to_neg. rewrite length_app.
  replace (length s + length suf - length suf)%nat with (length s) by lia.
  by rewrite take_app_length.
Qed.

(** An array text does not begin like a fence marker, nor with a j. *)
Lemma json_array_text_head p t :
  json_array_text p →
  ∃ c0 rest, p ++ t = c0 :: rest ∧ c0 ≠ 96 ∧ c0 ≠ 106.
Proof.
  intros (wl & body & wr & -> & Hwl & _).
  destruct Hwl as [|c wl Hc _]; simpl.
  - eexists _, _. split; [reflexivity|]. split; discriminate.
  - eexists _, _. split; [reflexivity|]. split; intros ->; discriminate.
Qed.

Lemma json_array_text_strip p :
  json_array_text p → ∃ body, strip p = 91 :: body ++ [93].
Proof.
  intros (wl & body & wr & -> & Hwl & Hwr). exists body.
  by apply (strip_between wl 91 body 93 wr).
Qed.

(** Trimming leaves a text that begins and ends with a backquote as it
    is. *)
Lemma strip_fenced f' p ws1 ws2 :
  all_space ws1 → all_space ws2 →
  strip (ws1 ++ (96 :: f') ++ p ++ lit "```" ++ ws2) = (96 :: f') ++ p ++ lit "```".
Proof.
  intros Hws1 Hws2.
  replace (ws1 ++ (96 :: f') ++ p ++ lit "```" ++ ws2)
    with (ws1 ++ 96 :: (f' ++ p ++ lit "``") ++ 96 :: ws2)
    by (rewrite <- !app_assoc; reflexivity).
  rewrite strip_between by done.
  change (96 :: (f' ++ p ++ lit "``") ++ [96]) with (96 :: ((f' ++ p ++ lit "``") ++ [96])).
  rewrite <- !app_assoc. reflexivity.
Qed.

(** What is left of a fenced array text is the array text, trimmed. *)
Lemma response_text_of_fenced f p ws1 ws2 :
  json_array_text p → fence_opening f → all_space ws1 → all_space ws2 →
  response_text_of (ws1 ++ f ++ p ++ lit "```" ++ ws2) = strip p.
Proof.
  intros Hp Hf Hws1 Hws2.
  destruct (json_array_text_head p (lit "```") Hp) as (c0 & rest & Hhead & H96 & H106).
  assert (startswith (p ++ lit "```") (lit "```") = false) as Hno.
  { rewrite Hhead. change (lit "```") with (96 :: lit "``").
    by rewrite startswith_cons, (proj2 (N.eqb_neq 96 c0)) by congruence. }
  assert (strip (ws1 ++ f ++ p ++ lit "```" ++ ws2) = f ++ p ++ lit "```") as Hstrip.
  { destruct Hf as [-> | ->].
    - exact (strip_fenced (lit "``json") p ws1 ws2 Hws1 Hws2).
    - exact (strip_fenced (lit "``") p ws1 ws2 Hws1 Hws2). }
  unfold response_text_of. rewrite Hstrip. cbv zeta. clear Hstrip.
  destruct Hf as [-> | ->].
  - rewrite startswith_app.
    change 7%nat with (length (lit "```json")). unfold slice_from.
    rewrite drop_app_length, Hno.
    rewrite endswith_app.
    change 3%nat with (length (lit "```")). by rewrite slice_to_neg_app.
  - assert (startswith (lit "```" ++ p ++ lit "```") (lit "```json") = false) as ->.
    { change (lit "```" ++ p ++ lit "```") with (96 :: 96 :: 96 :: (p ++ lit "```")).
      rewrite Hhead. change (lit "```json") with (96 :: 96 :: 96 :: 106 :: lit "son").
      rewrite !startswith_cons, !N.eqb_refl.
      by rewrite (proj2 (N.eqb_neq 106 c0)) by congruence. }
    rewrite startswith_app.
    change 3%nat with (length (lit "```")). unfold slice_from.
    rewrite drop_app_length.
    rewrite endswith_app. by rewrite slice_to_neg_app.
Qed.

(** An array text without a fence is only trimmed. *)
Lemma response_text_of_plain p :
  json_array_text p → response_text_of p = strip p.
Proof.
  intros [body Hbody]%json_array_text_strip.
  unfold response_text_of. rewrite Hbody. simpl.
  assert (endswith (91 :: body ++ [93]) (lit "```") = false) as ->.
  { unfold endswith. rewrite reverse_cons, reverse_app. reflexivity. }
  apply (strip_between [] 91 body 93 []); by constructor.
Qed.

End Fences.

Lemma example_payload_is_array : json_array_text example_payload.
Proof.
  exists NL, example_json_items, NL.
  split; [reflexivity|]. split; repeat constructor.
Defined.

Lemma images_attached_in_order_witness :
  ∃ ads w1,
    generate_ads_with_openai (example_client fenced_reply) example_loads
      (lit "50% off") (lit "Loja") (lit "moda") (lit "Minimalista") example_world
    = (inr ads, w1)
    ∧ ∃ results w2,
        generate_ads (example_client fenced_reply) example_loads example_str
          (example_body true) example_world = (inr (success results), w2)
        ∧ calls w2 = calls w1 ++ image_calls example_str (lit "Minimalista") ads
        ∧ length results = length ads
        ∧ ∀ i ad, ads !! i = Some ad →
            ∃ url,
              results !! i = Some (delete k_image_prompt (<[k_image_url := url]> ad))
              ∧ (truthy (prompt_of ad) = false → url = PNone)
              ∧ (truthy (prompt_of ad) = true →
                 ∀ wi, calls wi = calls w1
                                  ++ image_calls example_str (lit "Minimalista") (take i ads) →
                       (generate_image_with_dalle (example_client fenced_reply) example_str
                          (prompt_of ad) (lit "Minimalista") wi).1 = inr url).
Proof.
  eexists _, _.
  assert (generate_ads_with_openai (example_client fenced_reply) example_loads
            (lit "50% off") (lit "Loja") (lit "moda") (lit "Minimalista") example_world
          = _) as Hcopy by (vm_compute; reflexivity).
  split; [exact Hcopy|].
  exact (images_attached_in_order (example_client fenced_reply) example_loads example_str
           _ _ _ _ _ _ _ _ _ (example_accepted true) eq_refl Hcopy).
Defined.

Lemma truncated_ad_keys d : dom (truncated_ad d) = draft_keys.
Proof. unfold truncated_ad, draft_keys. rewrite !dom_insert_L, dom_empty_L. set_solver. Qed.

Lemma image_failure_is_caught_and_isolated_witness :
  (∀ prompt w0,
     ∃ url w0',
       generate_image_with_dalle (failing_at 0 quota_error (example_client [])) example_str
         prompt (lit "Minimalista") w0 = (inr url, w0')
       ∧ ∀ e0, images_generate (failing_at 0 quota_error (example_client [])) (calls w0)
                 (dalle_request example_str prompt (lit "Minimalista")) = inl e0 →
               url = PNone)
  ∧ ∃ out out' w1 w1',
      attach_images (example_client []) example_str (lit "Minimalista")
        example_drafts example_world = (inr out, w1)
      ∧ attach_images (failing_at 0 quota_error (example_client [])) example_str
          (lit "Minimalista") example_drafts example_world = (inr out', w1')
      ∧ out' !! 0%nat = Some (with_image PNone (truncated_ad (example_dicts !!! 0%nat)))
      ∧ ∀ i, i ≠ 0%nat → out' !! i = out !! i.
Proof.
  apply (image_failure_is_caught_and_isolated example_str
           (example_client []) (failing_at 0 quota_error (example_client []))
           (lit "Minimalista") example_drafts example_world 0
           (truncated_ad (example_dicts !!! 0%nat)) quota_error).
  - apply Forall_fmap, Forall_true. intros d. apply truncated_ad_keys.
  - reflexivity.
  - reflexivity.
  - intros h r Hlen. simpl in Hlen. simpl.
    destruct (decide (length h = 0%nat)) as [Hh|_]; [by destruct Hlen|reflexivity].
  - reflexivity.
Defined.

Lemma undecodable_reply_is_422_witness :
  generate_ads (example_client apology) example_loads example_str
    (example_body true) example_world
  = (inr (failure (lit "Erro ao processar resposta da IA: "
                   ++ lit "Expecting value: line 1 column 1 (char 0)") 422),
     after_chat example_world
       (gpt_request (lit "50% off") (lit "Loja") (lit "moda") (lit "Minimalista"))).
Proof.
  apply (undecodable_reply_is_422 (example_client apology) example_loads example_str
           (example_body true) example_world _ _ _ _ (PBool true) apology []).
  - exact (example_accepted true).
  - reflexivity.
  - vm_compute. reflexivity.
Defined.

(** C7 as it was claimed fails on a reply that is JSON of the wrong shape:
    the reply 5 decodes to the number 5, which the validation cannot iterate
    over, and the request is answered 500, not 422. *)
Lemma number_reply_is_not_422 :
  (generate_ads (example_client (lit "5")) example_loads example_str
     (example_body true) example_world).1
  = inr (failure (lit "Erro na comunicação com a API: 'int' object is not iterable") 500)
  ∧ ¬ ∃ detail w',
        generate_ads (example_client (lit "5")) example_loads example_str
          (example_body true) example_world
        = (inr (failure detail 422), w').
Proof.
  split; [vm_compute; reflexivity|].
  intros (detail & w' & H). vm_compute in H. discriminate H.
Qed.

Lemma blank_required_field_is_400_witness :
  ∃ msg,
    generate_ads (example_client []) example_loads example_str
      body_without_cliente example_world = (inr (failure msg 400), example_world)
    ∧ (lit "50% off" = [] → msg = msg_oferta)
    ∧ (lit "50% off" ≠ [] → @nil N = [] → msg = msg_cliente)
    ∧ (lit "50% off" ≠ [] → @nil N ≠ [] → msg = msg_nicho).
Proof.
  apply (blank_required_field_is_400 (example_client []) example_loads example_str
           body_without_cliente example_world
           (lit "50% off") [] (lit "moda") [] (PBool true)).
  - exists (lit "sk-test"). split; [reflexivity|discriminate].
  - repeat split; reflexivity.
  - right. left. reflexivity.
Defined.

(** C8 as it was claimed fails on the body [{}]: oferta, cliente and nicho
    are all missing, and the answer carries the message for a request without
    data, which is the message of none of the three fields. *)
Lemma empty_body_gets_no_field_message :
  generate_ads (example_client []) example_loads example_str (PDict ∅) example_world
  = (inr (failure msg_no_data 400), example_world)
  ∧ ¬ ∃ msg w',
        generate_ads (example_client []) example_loads example_str (PDict ∅) example_world
        = (inr (failure msg 400), w')
        ∧ (msg = msg_oferta ∨ msg = msg_cliente ∨ msg = msg_nicho).
Proof.
  split; [vm_compute; reflexivity|].
  intros (msg & w' & H & Hmsg). vm_compute in H.
  assert (msg = msg_no_data) as -> by (injection H as <- _; reflexivity).
  destruct Hmsg as [Hm|[Hm|Hm]]; discriminate Hm.
Qed.

Lemma validated_shape_and_result_keys_witness :
  (∃ out, validate_and_truncate_ads example_ads = inr out
          ∧ ∀ i d, (PDict <$> example_dicts) !! i = Some (PDict d) →
                   out !! i = Some (truncated_ad d))
  ∧ ∃ resp w',
      generate_ads (example_client fenced_reply) example_loads example_str
        (example_body true) example_world = (inr resp, w')
      ∧ status resp = 200%Z
      ∧ ∃ results, resp = success results
                   ∧ Forall (fun r : gmap pystr pyval => dom r = result_keys) results.
Proof.
  destruct (validated_shape_and_result_keys (example_client fenced_reply)
              example_loads example_str) as (_ & Hobjects & _ & Hanswer).
  split.
  - apply Hobjects. repeat constructor.
  - eexists _, _.
    assert (generate_ads (example_client fenced_reply) example_loads example_str
              (example_body true) example_world = _) as Hrun by (vm_compute; reflexivity).
    split; [exact Hrun|]. split; [reflexivity|].
    exact (Hanswer _ _ _ _ Hrun eq_refl).
Defined.

(** * Further properties of the validation *)

Lemma py_slice_to_raises n v e :
  py_slice_to n v = inl e → exn_class_of e = TypeError ∧ is_sliceable v = false.
Proof. destruct v; simpl; intros [= <-]; done. Qed.

Lemma py_slice_to_returns n v :
  is_sliceable v = true → ∃ r, py_slice_to n v = inr r.
Proof. destruct v; try discriminate; simpl; eauto. Qed.

Lemma validate_ad_raises ad e :
  validate_ad ad = inl e →
  (exn_class_of e = AttributeError ∨ exn_class_of e = TypeError) ∧ validates ad = false.
Proof.
  destruct ad as [| | | | | |d]; try (intros [= <-]; split; [by left|done]).
  rewrite validate_ad_dict. unfold validates, ad_fields. cbn [forallb fst].
  destruct (py_slice_to 40 (field d k_titulo)) as [e1|t] eqn:H1; simpl.
  { intros [= <-]. apply py_slice_to_raises in H1 as [? ->]. split; [by right|done]. }
  destruct (py_slice_to 250 (field d k_descricao)) as [e2|de] eqn:H2; simpl.
  { intros [= <-]. apply py_slice_to_raises in H2 as [? ->].
    split; [by right|by rewrite andb_false_r]. }
  destruct (py_slice_to 20 (field d k_cta)) as [e3|c] eqn:H3; simpl.
  { intros [= <-]. apply py_slice_to_raises in H3 as [? ->].
    split; [by right|by rewrite !andb_false_r]. }
  destruct (py_slice_to 200 (field d k_image_prompt)) as [e4|p] eqn:H4; simpl.
  { intros [= <-]. apply py_slice_to_raises in H4 as [? ->].
    split; [by right|by rewrite !andb_false_r]. }
  discriminate.
Qed.

(** X6. The validation of one item returns exactly when the item is a JSON
    object whose titulo, descricao, cta and image_prompt, where present, are
    texts or lists.  When it raises, it raises an AttributeError on an item
    that is no object, and a TypeError on an object none of whose four fields
    is itself an object (the offending value is then a null, a number or a
    boolean). *)
Theorem validate_ad_returns_iff (ad : pyval) :
  ((∃ o, validate_ad ad = inr o) ↔ validates ad = true)
  ∧ (∀ e, validate_ad ad = inl e →
          match ad with
          | PDict d => holds_object d = false → exn_class_of e = TypeError
          | _ => exn_class_of e = AttributeError
          end).
Proof.
  split; [split|].
  - intros [o Ho]. destruct (validates ad) eqn:Hv; [done|].
    apply validate_ad_inv in Ho as (d & t & de & c & p & -> & Ht & Hde & Hc & Hp & _).
    unfold validates, ad_fields in Hv. cbn [forallb fst] in Hv.
    apply py_slice_to_inv in Ht as [(? & Ht & _)|(? & Ht & _)],
      Hde as [(? & Hde & _)|(? & Hde & _)], Hc as [(? & Hc & _)|(? & Hc & _)],
      Hp as [(? & Hp & _)|(? & Hp & _)];
      rewrite Ht, Hde, Hc, Hp in Hv; discriminate.
  - intros Hv. destruct (validate_ad ad) as [e|o] eqn:E; [|eauto].
    apply validate_ad_raises in E as [_ E]. congruence.
  - intros e He.
    destruct ad as [| | | | | |d]; try (injection He as <-; reflexivity).
    intros _. rewrite validate_ad_dict in He.
    destruct (py_slice_to 40 (field d k_titulo)) as [e1|t] eqn:H1; simpl in He.
    { injection He as <-. by apply py_slice_to_raises in H1 as [? _]. }
    destruct (py_slice_to 250 (field d k_descricao)) as [e2|de] eqn:H2; simpl in He.
    { injection He as <-. by apply py_slice_to_raises in H2 as [? _]. }
    destruct (py_slice_to 20 (field d k_cta)) as [e3|c] eqn:H3; simpl in He.
    { injection He as <-. by apply py_slice_to_raises in H3 as [? _]. }
    destruct (py_slice_to 200 (field d k_image_prompt)) as [e4|p] eqn:H4; simpl in He.
    { injection He as <-. by apply py_slice_to_raises in H4 as [? _]. }
    discriminate.
Qed.

Lemma validate_ad_returns_iff_witness :
  ((∃ o, validate_ad short_ad = inr o) ↔ validates short_ad = true)
  ∧ exn_class_of (not_subscriptable PNone) = TypeError.
Proof.
  destruct (validate_ad_returns_iff short_ad) as [Hiff _]. split; [exact Hiff|].
  exact (proj2 (validate_ad_returns_iff null_title_ad)
           (not_subscriptable PNone) eq_refl eq_refl).
Defined.

(** X7. The validated form of an ad object depends only on what it holds
    under titulo, descricao, cta and image_prompt: every other key of the
    upstream object is ignored. *)
Theorem validate_ad_ignores_other_keys (d d' : gmap pystr pyval) :
  (∀ k, k ∈ draft_keys → d !! k = d' !! k) →
  validate_ad (PDict d) = validate_ad (PDict d').
Proof.
  intros H. rewrite !validate_ad_dict. unfold field.
  rewrite (H k_titulo), (H k_descricao), (H k_cta), (H k_image_prompt);
    [done|unfold draft_keys; set_solver..].
Qed.

Lemma validate_ad_ignores_other_keys_witness :
  validate_ad (PDict (<[k_titulo := PStr (lit "A")]> ∅))
  = validate_ad (PDict (<[k_titulo := PStr (lit "A")]> (<[lit "nota" := PInt 5]> ∅))).
Proof.
  apply validate_ad_ignores_other_keys.
  intros k Hk. unfold draft_keys in Hk.
  rewrite !elem_of_union, !elem_of_singleton in Hk.
  destruct Hk as [[[-> | ->] | ->] | ->]; reflexivity.
Defined.

Lemma validate_each_app_raises pre bad post e :
  (∃ out, validate_each pre = inr out) → validate_ad bad = inl e →
  validate_each (pre ++ bad :: post) = inl e.
Proof.
  intros [out Hout] Hbad. revert out Hout.
  induction pre as [|ad pre IH]; intros out Hout; simpl.
  - by rewrite Hbad.
  - simpl in Hout. apply result_bind_inr in Hout as (o & -> & Hout).
    apply result_bind_inr in Hout as (os & Hos & _). simpl.
    by rewrite (IH os Hos).
Qed.

(** X8. The validation is all or nothing: when the items before a bad one
    are ad objects, the call raises what the first bad item raises, and
    returns none of the items validated before it. *)
Theorem validation_raises_at_first_bad_item (pre post : list pyval) (bad : pyval) (e : exn) :
  Forall (fun v => is_ad_object v = true) pre →
  validate_ad bad = inl e →
  validate_and_truncate_ads (PList (pre ++ bad :: post)) = inl e.
Proof.
  intros Hpre Hbad. unfold validate_and_truncate_ads. simpl.
  apply validate_each_app_raises; [|done].
  apply validate_objects in Hpre as (ds & -> & Hv).
  unfold validate_and_truncate_ads in Hv. simpl in Hv. eauto.
Qed.

Lemma validation_raises_at_first_bad_item_witness :
  validate_and_truncate_ads (PList ([short_ad] ++ PInt 5 :: [long_title_ad]))
  = inl (no_attribute (PInt 5) "get").
Proof.
  apply validation_raises_at_first_bad_item; [repeat constructor|reflexivity].
Defined.

Lemma validate_each_raises items e :
  validate_each items = inl e →
  exn_class_of e = AttributeError ∨ exn_class_of e = TypeError.
Proof.
  induction items as [|ad rest IH]; simpl; [discriminate|].
  destruct (validate_ad ad) as [e1|o] eqn:Had; simpl.
  { intros [= <-]. by apply validate_ad_raises in Had as [? _]. }
  destruct (validate_each rest) as [e2|os]; simpl; [|discriminate].
  intros [= <-]. by apply IH.
Qed.

Lemma validate_raises ads e :
  validate_and_truncate_ads ads = inl e →
  exn_class_of e = AttributeError ∨ exn_class_of e = TypeError.
Proof.
  unfold validate_and_truncate_ads.
  destruct (py_iter ads) as [e1|items] eqn:Hit; simpl.
  { intros [= <-]. destruct ads; try discriminate; injection Hit as <-; by right. }
  apply validate_each_raises.
Qed.

(** X9. What validate_and_truncate_ads returns on, and with what: on a
    list all of whose items validate, with the validated items in order; and
    on an empty object or an empty text, which it takes for an empty list of
    ads.  On every other value (null, a number, a boolean, an object or a
    text that is not empty) it raises. *)
Theorem validation_returns_iff (ads : pyval) (out : list (gmap pystr pyval)) :
  validate_and_truncate_ads ads = inr out
  ↔ (∃ items, ads = PList items
              ∧ Forall2 (fun ad o => validate_ad ad = inr o) items out)
    ∨ ((ads = PDict ∅ ∨ ads = PStr []) ∧ out = []).
Proof.
  unfold validate_and_truncate_ads. split.
  - destruct ads as [| | | |s|l|d]; simpl; try discriminate.
    + destruct s as [|c s]; [intros [= <-]; right; eauto|]. discriminate.
    + intros H%validate_each_Forall2. left. eauto.
    + destruct (map_to_list d) as [|[k v] rest] eqn:Hd; simpl.
      * apply map_to_list_empty_iff in Hd as ->. intros [= <-]. right. eauto.
      * discriminate.
  - intros [(items & -> & H)|[[-> | ->] ->]]; simpl.
    + by apply validate_each_Forall2.
    + by rewrite map_to_list_empty.
    + done.
Qed.

(** * Further properties of the endpoint *)

Section Answers.

Variable client : OpenAI.
Variable json_loads : pystr -> pystr + pyval.
Variable py_str : pyval -> pystr.

Lemma field_text_dict (d : gmap pystr pyval) (k : pystr) :
  field_text (PDict d) k
  = match d !! k with
    | None => inr []
    | Some (PStr s) => inr (strip s)
    | Some v => inl (no_attribute v "strip")
    end.
Proof. unfold field_text. simpl. by destruct (d !! k) as [[]|]. Qed.

Lemma field_text_raises data k e :
  field_text data k = inl e → exn_class_of e = AttributeError.
Proof.
  destruct data as [| | | | | |d]; try (intros [= <-]; reflexivity).
  rewrite field_text_dict. destruct (d !! k) as [[]|]; intros [= <-]; reflexivity.
Qed.

Lemma configured_test w :
  configured w → from_option nonempty false (environ w !! k_OPENAI_API_KEY) = true.
Proof. intros (key & -> & Hne). simpl. by destruct key. Qed.

Lemma not_configured_test w :
  ¬ configured w → from_option nonempty false (environ w !! k_OPENAI_API_KEY) = false.
Proof.
  intros Hno. destruct (environ w !! k_OPENAI_API_KEY) as [[|c key]|] eqn:E; try done.
  destruct Hno. by exists (c :: key).
Qed.

(** X1. Without an API key, or with an empty one, every request is
    answered 500 with the message of line 193, whatever its body, even one
    the endpoint could not read; nothing else happens. *)
Theorem missing_api_key_is_500 (data : pyval) (w : world) :
  ¬ configured w →
  generate_ads client json_loads py_str data w = (inr (failure msg_no_api_key 500), w).
Proof.
  intros Hno. unfold generate_ads, getenv, mbind at 1, M_bind at 1. simpl.
  by rewrite (not_configured_test w Hno).
Qed.

(** X2. With the key set, a body that counts as false (null, false, 0, an
    empty text, list or object) is answered 400 with the message of line 201,
    and nothing else happens. *)
Theorem falsy_body_is_400 (data : pyval) (w : world) :
  configured w → truthy data = false →
  generate_ads client json_loads py_str data w = (inr (failure msg_no_data 400), w).
Proof.
  intros Hc Hd. unfold generate_ads, getenv, mbind at 1, M_bind at 1. simpl.
  by rewrite (configured_test w Hc), Hd.
Qed.

(** X3. With the key set, a body that is not empty but is no JSON object,
    or holds something other than a text under oferta, cliente, nicho or
    estilo_visual, gets no JSON answer: an AttributeError leaves the view,
    before any check of the required fields and before any upstream call. *)
Theorem unreadable_body_raises (data : pyval) (w : world) :
  configured w → truthy data = true → unreadable data = true →
  ∃ e, generate_ads client json_loads py_str data w = (inl e, w)
       ∧ exn_class_of e = AttributeError.
Proof.
  intros Hc Hd Hu. unfold generate_ads, getenv, mbind at 1, M_bind at 1. simpl.
  rewrite (configured_test w Hc), Hd. simpl.
  unfold mbind at 1 2 3 4 5, M_bind, lift.
  destruct (field_text data k_oferta) as [e|oferta] eqn:Ho.
  { exists e. split; [done|]. by eapply field_text_raises. }
  destruct (field_text data k_cliente) as [e|cliente] eqn:Hcl.
  { exists e. split; [done|]. by eapply field_text_raises. }
  destruct (field_text data k_nicho) as [e|nicho] eqn:Hn.
  { exists e. split; [done|]. by eapply field_text_raises. }
  destruct (field_text data k_estilo_visual) as [e|estilo_visual] eqn:He.
  { exists e. split; [done|]. by eapply field_text_raises. }
  exfalso. destruct data as [| | | | | |d]; try discriminate.
  rewrite field_text_dict in Ho, Hcl, Hn, He. simpl in Hu.
  destruct (d !! k_oferta) as [[]|]; try discriminate;
    destruct (d !! k_cliente) as [[]|]; try discriminate;
    destruct (d !! k_nicho) as [[]|]; try discriminate;
    destruct (d !! k_estilo_visual) as [[]|]; discriminate.
Qed.

(** The generation stage always answers: no exception leaves it. *)
Lemma generation_stage_answers oferta cliente nicho estilo_visual generate_images w :
  ∃ resp w',
    generation_stage client json_loads py_str oferta cliente nicho estilo_visual
      generate_images w = (inr resp, w')
    ∧ ((∃ results, resp = success results)
       ∨ ∃ msg, resp = failure msg 422 ∨ resp = failure msg 500).
Proof.
  unfold generation_stage, try_except, mbind at 1, M_bind at 1.
  destruct (generate_ads_with_openai _ _ _ _ _ _ w) as [[e|ads] w1] eqn:Hcopy.
  { destruct (is_ValueError e); eexists _, _; (split; [reflexivity|]); right; eauto. }
  apply generate_ads_with_openai_returns in Hcopy as [_ Hkeys].
  destruct (truthy generate_images).
  - destruct (attach_images_keys client py_str estilo_visual ads w1 Hkeys)
      as (out & w2 & Hrun & _).
    unfold mbind, M_bind. rewrite Hrun. eexists _, _. split; [reflexivity|]. left. eauto.
  - eexists _, _. split; [reflexivity|]. left. eauto.
Qed.

(** X4. Whatever the body and the upstream service do, an answer of the
    endpoint is either the success answer, with status 200, or a failure
    answer with success false, one error text and status 400, 422 or 500. *)
Theorem answer_shapes (data : pyval) (w : world) (resp : response) (w' : world) :
  generate_ads client json_loads py_str data w = (inr resp, w') →
  (∃ results, resp = success results ∧ status resp = 200%Z)
  ∨ ∃ msg code, resp = failure msg code ∧ (code = 400 ∨ code = 422 ∨ code = 500)%Z.
Proof.
  unfold generate_ads, getenv, mbind at 1, M_bind at 1. simpl.
  destruct (from_option nonempty false _); simpl;
    [|intros [= <- _]; right; eauto 6].
  destruct (truthy data); simpl; [|intros [= <- _]; right; eauto 6].
  unfold mbind at 1 2 3 4 5, M_bind, lift.
  destruct (field_text data k_oferta) as [|oferta]; [discriminate|].
  destruct (field_text data k_cliente) as [|cliente]; [discriminate|].
  destruct (field_text data k_nicho) as [|nicho]; [discriminate|].
  destruct (field_text data k_estilo_visual) as [|estilo_visual]; [discriminate|].
  destruct (py_get data k_generate_images _) as [|generate_images]; [discriminate|].
  destruct (nonempty oferta); simpl; [|intros [= <- _]; right; eauto 6].
  destruct (nonempty cliente); simpl; [|intros [= <- _]; right; eauto 6].
  destruct (nonempty nicho); simpl; [|intros [= <- _]; right; eauto 6].
  destruct (generation_stage_answers oferta cliente nicho estilo_visual generate_images w)
    as (resp' & w2 & -> & Hshape).
  intros [= <- _]. destruct Hshape as [[results ->]|[msg [-> | ->]]].
  - left. eauto.
  - right. eauto 6.
  - right. eauto 6.
Qed.

(** Once the body is there, an exception leaves only while it is read. *)
Lemma reading_raises_or_answers (data : pyval) (w : world) (e : exn) (w' : world) :
  generate_ads client json_loads py_str data w = (inl e, w') →
  exn_class_of e = AttributeError ∧ w' = w ∧ unreadable data = true.
Proof.
  unfold generate_ads, getenv, mbind at 1, M_bind at 1. simpl.
  destruct (from_option nonempty false _); simpl; [|discriminate].
  destruct (truthy data); simpl; [|discriminate].
  unfold mbind at 1 2 3 4 5, M_bind, lift.
  assert (∀ k e0, k ∈ text_keys → field_text data k = inl e0 → unreadable data = true)
    as Hunread.
  { intros k e0 Hk. destruct data as [| | | | | |d]; try done.
    rewrite field_text_dict. intros Hf. unfold unreadable. apply existsb_exists.
    exists k. split; [by apply list_elem_of_In|].
    by destruct (d !! k) as [[]|]. }
  destruct (field_text data k_oferta) as [e0|oferta] eqn:Ho.
  { intros [= <- <-]. split; [by eapply field_text_raises|]. split; [done|].
    eapply (Hunread k_oferta); [unfold text_keys; set_solver|done]. }
  destruct (field_text data k_cliente) as [e0|cliente] eqn:Hcl.
  { intros [= <- <-]. split; [by eapply field_text_raises|]. split; [done|].
    eapply (Hunread k_cliente); [unfold text_keys; set_solver|done]. }
  destruct (field_text data k_nicho) as [e0|nicho] eqn:Hn.
  { intros [= <- <-]. split; [by eapply field_text_raises|]. split; [done|].
    eapply (Hunread k_nicho); [unfold text_keys; set_solver|done]. }
  destruct (field_text data k_estilo_visual) as [e0|estilo_visual] eqn:He.
  { intros [= <- <-]. split; [by eapply field_text_raises|]. split; [done|].
    eapply (Hunread k_estilo_visual); [unfold text_keys; set_solver|done]. }
  destruct (py_get data k_generate_images _) as [e0|generate_images] eqn:Hg.
  { destruct data; discriminate. }
  destruct (nonempty oferta); simpl; [|discriminate].
  destruct (nonempty cliente); simpl; [|discriminate].
  destruct (nonempty nicho); simpl; [|discriminate].
  destruct (generation_stage_answers oferta cliente nicho estilo_visual generate_images w)
    as (resp' & w2 & -> & _).
  discriminate.
Qed.

(** X10. When the copy generation raises, the request ends there: the
    answer is the failure with the text of the exception, 422 for a
    ValueError and 500 otherwise, and the chat call is the only upstream call
    of the request, so no image is ever requested for a failed copy. *)
Theorem copy_failure_ends_the_request data w oferta cliente nicho estilo_visual
    generate_images (e : exn) (w1 : world) :
  accepted w data oferta cliente nicho estilo_visual generate_images →
  generate_ads_with_openai client json_loads oferta cliente nicho estilo_visual w
  = (inl e, w1) →
  generate_ads client json_loads py_str data w
  = (inr (failure (exn_str e) (if is_ValueError e then 422 else 500)), w1)
  ∧ calls w1 = calls w ++ [ChatCall (gpt_request oferta cliente nicho estilo_visual)]
  ∧ stdout w1 = stdout w.
Proof.
  intros Hacc Hcopy. rewrite (generate_ads_accepted _ _ _ _ _ _ _ _ _ _ Hacc).
  split.
  - unfold generation_stage, try_except, mbind at 1, M_bind at 1. rewrite Hcopy.
    by destruct (is_ValueError e).
  - rewrite generate_ads_with_openai_run in Hcopy. by injection Hcopy as _ <-.
Qed.

(** X11. When the chat call itself raises, the answer is 500 with the
    text of the exception behind the prefix of line 170, also for a plain
    ValueError; only a JSONDecodeError raised by the client is answered 422,
    behind the prefix of line 168. *)
Theorem upstream_failure_status data w oferta cliente nicho estilo_visual
    generate_images (e : exn) :
  accepted w data oferta cliente nicho estilo_visual generate_images →
  chat_completions_create client (calls w)
    (gpt_request oferta cliente nicho estilo_visual) = inl e →
  generate_ads client json_loads py_str data w
  = (inr (if is_JSONDecodeError e
          then failure (parse_prefix ++ exn_str e) 422
          else failure (api_prefix ++ exn_str e) 500),
     after_chat w (gpt_request oferta cliente nicho estilo_visual)).
Proof.
  intros Hacc Hchat. rewrite (generate_ads_accepted _ _ _ _ _ _ _ _ _ _ Hacc).
  unfold generation_stage, try_except, mbind at 1, M_bind at 1.
  rewrite generate_ads_with_openai_run, Hchat. simpl.
  unfold reraised. by destruct (is_JSONDecodeError e).
Qed.

(** X12. generate_ads_with_openai makes its one chat call whatever
    happens, changes nothing else, and raises only in two forms: a ValueError
    whose text begins with the prefix of line 168, or an Exception whose text
    begins with the prefix of line 170. *)
Theorem copy_generation_footprint (oferta cliente nicho estilo_visual : pystr) (w : world) :
  (generate_ads_with_openai client json_loads oferta cliente nicho estilo_visual w).2
  = after_chat w (gpt_request oferta cliente nicho estilo_visual)
  ∧ ∀ e, (generate_ads_with_openai client json_loads
            oferta cliente nicho estilo_visual w).1 = inl e →
         (exn_class_of e = ValueError ∧ ∃ detail, exn_str e = parse_prefix ++ detail)
         ∨ (exn_class_of e = Exception_ ∧ ∃ detail, exn_str e = api_prefix ++ detail).
Proof.
  rewrite generate_ads_with_openai_run. split; [done|]. simpl.
  intros e He.
  destruct (chat_completions_create client (calls w) _ ≫= ads_of_response json_loads)
    as [e0|ads]; [|discriminate].
  injection He as <-. unfold reraised.
  destruct (is_JSONDecodeError e0); [left|right]; split; eauto.
Qed.

(** X13. A reply without any choice, or whose first choice has no text, is
    answered 500 behind the prefix of line 170, like a failure of the
    connection. *)
Theorem reply_without_text_is_500 data w oferta cliente nicho estilo_visual
    generate_images (response : list (option pystr)) :
  accepted w data oferta cliente nicho estilo_visual generate_images →
  chat_completions_create client (calls w)
    (gpt_request oferta cliente nicho estilo_visual) = inr response →
  response = [] ∨ (∃ rest, response = None :: rest) →
  ∃ detail,
    generate_ads client json_loads py_str data w
    = (inr (failure (api_prefix ++ detail) 500),
       after_chat w (gpt_request oferta cliente nicho estilo_visual)).
Proof.
  intros Hacc Hchat Hresp. rewrite (generate_ads_accepted _ _ _ _ _ _ _ _ _ _ Hacc).
  unfold generation_stage, try_except, mbind at 1, M_bind at 1.
  rewrite generate_ads_with_openai_run, Hchat.
  destruct Hresp as [-> | [rest ->]]; eexists; reflexivity.
Qed.

(** X14. A reply that decodes to an empty list, an empty object or an
    empty text is a success: the answer is 200 with no ads, and no image is
    requested, whatever generate_images says. *)
Theorem empty_reply_is_an_empty_success data w oferta cliente nicho estilo_visual
    generate_images (content : pystr) (rest : list (option pystr)) (v : pyval) :
  accepted w data oferta cliente nicho estilo_visual generate_images →
  chat_completions_create client (calls w)
    (gpt_request oferta cliente nicho estilo_visual) = inr (Some content :: rest) →
  json_loads (response_text_of content) = inr v →
  v = PList [] ∨ v = PDict ∅ ∨ v = PStr [] →
  generate_ads client json_loads py_str data w
  = (inr (success []), after_chat w (gpt_request oferta cliente nicho estilo_visual)).
Proof.
  intros Hacc Hchat Hloads Hv. rewrite (generate_ads_accepted _ _ _ _ _ _ _ _ _ _ Hacc).
  unfold generation_stage, try_except, mbind at 1, M_bind at 1.
  rewrite generate_ads_with_openai_run, Hchat.
  unfold ads_of_response, loads. simpl. rewrite Hloads. simpl.
  assert (validate_and_truncate_ads v = inr []) as ->.
  { destruct Hv as [-> | [-> | ->]]; unfold validate_and_truncate_ads; simpl;
      [done|by rewrite map_to_list_empty|done]. }
  by destruct (truthy generate_images).
Qed.

(** X15. A reply that decodes, but to a value the validation raises on (a
    number, null, a list with an item that is no object, a draft with a null
    field), is answered 500 behind the prefix of line 170, never 422. *)
Theorem wrong_shape_reply_is_500 data w oferta cliente nicho estilo_visual
    generate_images (content : pystr) (rest : list (option pystr)) (v : pyval) (e : exn) :
  accepted w data oferta cliente nicho estilo_visual generate_images →
  chat_completions_create client (calls w)
    (gpt_request oferta cliente nicho estilo_visual) = inr (Some content :: rest) →
  json_loads (response_text_of content) = inr v →
  validate_and_truncate_ads v = inl e →
  generate_ads client json_loads py_str data w
  = (inr (failure (api_prefix ++ exn_str e) 500),
     after_chat w (gpt_request oferta cliente nicho estilo_visual)).
Proof.
  intros Hacc Hchat Hloads Hv. rewrite (generate_ads_accepted _ _ _ _ _ _ _ _ _ _ Hacc).
  unfold generation_stage, try_except, mbind at 1, M_bind at 1.
  rewrite generate_ads_with_openai_run, Hchat.
  unfold ads_of_response, loads. simpl. rewrite Hloads. simpl. rewrite Hv.
  unfold reraised, is_JSONDecodeError.
  by destruct (validate_raises v e Hv) as [-> | ->].
Qed.

(** X16. The answer depends on the body only through the five values read
    from it: two bodies that give the same oferta, cliente, nicho and
    estilo_visual after trimming, and the same generate_images, are answered
    alike, so white space around the texts and keys the endpoint does not
    know make no difference. *)
Theorem answer_depends_on_values_read (data data' : pyval) (w : world)
    (oferta cliente nicho estilo_visual : pystr) (generate_images : pyval) :
  reads data oferta cliente nicho estilo_visual generate_images →
  reads data' oferta cliente nicho estilo_visual generate_images →
  generate_ads client json_loads py_str data w
  = generate_ads client json_loads py_str data' w.
Proof.
  intros (Hd & Ho & Hc & Hn & He & Hg) (Hd' & Ho' & Hc' & Hn' & He' & Hg').
  unfold generate_ads, getenv, mbind at 1 7, M_bind at 1 7. simpl.
  destruct (from_option nonempty false _); simpl; [|done].
  rewrite Hd, Hd'. simpl. unfold mbind, M_bind, lift.
  by rewrite Ho, Ho', Hc, Hc', Hn, Hn', He, He', Hg, Hg'.
Qed.

(** X5. An exception leaves the view only at two places, both before any
    upstream call: at line 196, when [request.get_json()] itself raises, and
    at lines 205-210, when the body it returned cannot be read, which raises
    an AttributeError.  The world is as it was in both cases, and nothing
    raised during the generation escapes. *)
Theorem escaping_exception_is_from_reading (get_json : result pyval) (w : world)
    (e : exn) (w' : world) :
  generate_ads_view client json_loads py_str get_json w = (inl e, w') →
  w' = w
  ∧ (get_json = inl e
     ∨ ∃ data, get_json = inr data
               ∧ unreadable data = true
               ∧ exn_class_of e = AttributeError).
Proof.
  unfold generate_ads_view, getenv, mbind at 1, M_bind at 1. simpl.
  destruct (from_option nonempty false _); simpl; [|discriminate].
  unfold mbind, M_bind, lift.
  destruct get_json as [e0|data].
  - intros [= <- <-]. split; [done|]. by left.
  - intros (Hclass & -> & Hunread)%reading_raises_or_answers.
    split; [done|]. right. by exists data.
Qed.

End Answers.

(** * Further properties of the image stage *)

Section Images.

Variable client : OpenAI.
Variable py_str : pyval -> pystr.

(** X17. generate_image_with_dalle makes exactly one image call and
    changes nothing else but the console: it returns the url when the call
    returned a first image with a url, and None otherwise; it prints one line
    when the call raised or returned no image, and nothing when it returned
    one. *)
Theorem image_generation_footprint (prompt : pyval) (style : pystr) (w : world) :
  ∃ url w',
    generate_image_with_dalle client py_str prompt style w = (inr url, w')
    ∧ environ w' = environ w
    ∧ calls w' = calls w ++ [ImageCall (dalle_request py_str prompt style)]
    ∧ match images_generate client (calls w) (dalle_request py_str prompt style) with
      | inr (Some u :: _) => url = PStr u ∧ stdout w' = stdout w
      | inr (None :: _) => url = PNone ∧ stdout w' = stdout w
      | inr [] =>
          url = PNone
          ∧ stdout w' = stdout w
                        ++ [lit "Erro ao gerar imagem: " ++ lit "list index out of range"]
      | inl e =>
          url = PNone ∧ stdout w' = stdout w ++ [lit "Erro ao gerar imagem: " ++ exn_str e]
      end.
Proof.
  eexists _, _. split; [apply generate_image_with_dalle_run|].
  split; [reflexivity|]. split; [reflexivity|].
  destruct (images_generate client (calls w) _) as [e|[|[u|] rest]];
    split; reflexivity.
Qed.

Lemma full_prompt_length (s style : pystr) :
  (length s ≤ 200)%nat →
  (length (full_prompt_of py_str (PStr s) style) ≤ 312 + length style)%nat.
Proof.
  intros Hs. unfold full_prompt_of, format_value.
  destruct style as [|c style]; simpl nonempty; cbv iota;
    rewrite !length_app; simpl length; lia.
Qed.

Lemma image_calls_bounded (style : pystr) (ads : list (gmap pystr pyval)) :
  Forall text_within_limits ads →
  (length (image_calls py_str style ads) ≤ length ads)%nat
  ∧ Forall (standard_image_call (312 + length style)) (image_calls py_str style ads).
Proof.
  induction 1 as [|ad ads Had _ [IHlen IH]]; simpl; [split; [lia|constructor]|].
  destruct Had as (_ & _ & _ & (s & Hs & Hlen)).
  assert (prompt_of ad = PStr s) as -> by (unfold prompt_of, field; by rewrite Hs).
  destruct (truthy (PStr s)); simpl; [|split; [lia|done]].
  split; [lia|]. constructor; [|done].
  eexists. split; [reflexivity|]. repeat split. simpl.
  by apply full_prompt_length.
Qed.

Lemma text_within_limits_has_prompt (ads : list (gmap pystr pyval)) :
  Forall text_within_limits ads →
  Forall (fun ad : gmap pystr pyval => is_Some (ad !! k_image_prompt)) ads.
Proof.
  intros H. eapply Forall_impl; [exact H|].
  intros ad (_ & _ & _ & (s & Hs & _)). by rewrite Hs.
Qed.

(** X18. On validated drafts whose fields are texts, the loop of lines
    226-235 completes, and the upstream calls it makes are at most one for
    each draft, each asking dall-e-3 for one 1024x1024 image of standard
    quality with a prompt of at most 312 characters plus the length of the
    style.  So an accepted request with images makes, after its chat call,
    at most one such call for each draft. *)
Theorem image_requests_are_bounded (json_loads : pystr -> pystr + pyval)
    (style : pystr) (ads : list (gmap pystr pyval)) :
  Forall text_within_limits ads →
  (∀ w, ∃ out w' cs,
      attach_images client py_str style ads w = (inr out, w')
      ∧ calls w' = calls w ++ cs
      ∧ (length cs ≤ length ads)%nat
      ∧ Forall (standard_image_call (312 + length style)) cs)
  ∧ (∀ data w oferta cliente nicho generate_images w1,
       accepted w data oferta cliente nicho style generate_images →
       truthy generate_images = true →
       generate_ads_with_openai client json_loads oferta cliente nicho style w
       = (inr ads, w1) →
       ∃ results w2 cs,
         generate_ads client json_loads py_str data w = (inr (success results), w2)
         ∧ calls w2 = calls w ++ ChatCall (gpt_request oferta cliente nicho style) :: cs
         ∧ (length cs ≤ length ads)%nat
         ∧ Forall (standard_image_call (312 + length style)) cs).
Proof.
  intros Hads.
  destruct (image_calls_bounded style ads Hads) as [Hlen Hstd].
  pose proof (text_within_limits_has_prompt ads Hads) as Hprompts.
  split.
  - intros w.
    destruct (attach_images_run client py_str style ads w Hprompts)
      as (out & w' & Hrun & _ & Hcalls & _).
    by exists out, w', (image_calls py_str style ads).
  - intros data w oferta cliente nicho generate_images w1 Hacc Hg Hcopy.
    destruct (attach_images_run client py_str style ads w1 Hprompts)
      as (out & w2 & Hrun & _ & Hcalls & _).
    exists out, w2, (image_calls py_str style ads).
    split; [|split; [|done]].
    + rewrite (generate_ads_accepted _ _ _ _ _ _ _ _ _ _ Hacc).
      unfold generation_stage, try_except, mbind at 1, M_bind at 1.
      rewrite Hcopy, Hg. unfold mbind, M_bind. by rewrite Hrun.
    + apply generate_ads_with_openai_returns in Hcopy as [-> _].
      rewrite Hcalls. simpl. by rewrite <- app_assoc.
Qed.

End Images.

(** * Further properties of the fence stripping *)

Section MoreFences.

Lemma endswith_last_differs (s : pystr) (b : N) :
  b ≠ 96 → endswith (s ++ [b]) (lit "```") = false.
Proof.
  intros Hb. unfold endswith. rewrite reverse_app.
  change (reverse [b] ++ reverse s) with (b :: reverse s).
  change (reverse (lit "```")) with (96 :: lit "``").
  by rewrite startswith_cons, (proj2 (N.eqb_neq 96 b)) by congruence.
Qed.

(** X19. Any text between a json fence and a closing fence is handed to
    [json.loads] trimmed, provided it does not itself begin with three
    backquotes; between a bare fence and a closing fence likewise, provided
    it does not begin with the word json.  So a tag other than a lower-case
    json stays in the text that is decoded. *)
Theorem fenced_text_is_trimmed (b : pystr) :
  (startswith (b ++ lit "```") (lit "```") = false →
   response_text_of (lit "```json" ++ b ++ lit "```") = strip b)
  ∧ (startswith (b ++ lit "```") (lit "json") = false →
     response_text_of (lit "```" ++ b ++ lit "```") = strip b).
Proof.
  split; intros Hb; unfold response_text_of.
  - pose proof (strip_fenced (lit "``json") b [] [] (Forall_nil_2 _) (Forall_nil_2 _)) as Hs.
    rewrite app_nil_r in Hs.
    change ([] ++ (96 :: lit "``json") ++ b ++ lit "```") with (lit "```json" ++ b ++ lit "```") in Hs.
    change ((96 :: lit "``json") ++ b ++ lit "```") with (lit "```json" ++ b ++ lit "```") in Hs.
    rewrite Hs. cbv zeta. rewrite startswith_app.
    change 7%nat with (length (lit "```json")). unfold slice_from.
    rewrite drop_app_length, Hb, endswith_app.
    change 3%nat with (length (lit "```")). by rewrite slice_to_neg_app.
  - pose proof (strip_fenced (lit "``") b [] [] (Forall_nil_2 _) (Forall_nil_2 _)) as Hs.
    rewrite app_nil_r in Hs.
    change ([] ++ (96 :: lit "``") ++ b ++ lit "```") with (lit "```" ++ b ++ lit "```") in Hs.
    change ((96 :: lit "``") ++ b ++ lit "```") with (lit "```" ++ b ++ lit "```") in Hs.
    rewrite Hs. cbv zeta.
    assert (startswith (lit "```" ++ b ++ lit "```") (lit "```json") = false) as ->.
    { change (lit "```" ++ b ++ lit "```") with (96 :: 96 :: 96 :: (b ++ lit "```")).
      change (lit "```json") with (96 :: 96 :: 96 :: lit "json").
      by rewrite !startswith_cons, !N.eqb_refl. }
    rewrite startswith_app.
    change 3%nat with (length (lit "```")). unfold slice_from.
    rewrite drop_app_length, endswith_app. by rewrite slice_to_neg_app.
Qed.

(** An array text with only an opening fence. *)
Lemma response_text_of_opened f p :
  json_array_text p → fence_opening f → response_text_of (f ++ p) = strip p.
Proof.
  intros Hp Hf.
  destruct Hp as (wl & body & wr & -> & Hwl & Hwr).
  set (t := wl ++ 91 :: body ++ [93]).
  assert (json_array_text t) as Ht.
  { exists wl, body, []. split; [reflexivity|]. split; [done|constructor]. }
  destruct (json_array_text_head t [] Ht) as (c0 & rest & Hhead & H96 & H106).
  rewrite app_nil_r in Hhead.
  assert (strip (wl ++ lit "[" ++ body ++ lit "]" ++ wr) = 91 :: body ++ [93]) as ->
    by (by apply (strip_between wl 91 body 93 wr)).
  assert (strip t = 91 :: body ++ [93]) as Hst
    by (apply (strip_between wl 91 body 93 []); by try constructor).
  assert (endswith t (lit "```") = false) as Hend.
  { unfold t. change (wl ++ 91 :: body ++ [93]) with (wl ++ (91 :: body) ++ [93]).
    rewrite app_assoc. by apply endswith_last_differs. }
  assert (∀ f', strip ((96 :: f') ++ wl ++ lit "[" ++ body ++ lit "]" ++ wr)
                = (96 :: f') ++ t) as Hstrip.
  { intros f'.
    replace ((96 :: f') ++ wl ++ lit "[" ++ body ++ lit "]" ++ wr)
      with ([] ++ 96 :: (f' ++ wl ++ 91 :: body) ++ 93 :: wr)
      by (simpl; rewrite <- !app_assoc; reflexivity).
    rewrite strip_between by (done || constructor).
    unfold t. simpl. f_equal. rewrite <- !app_assoc. reflexivity. }
  unfold response_text_of.
  destruct Hf as [-> | ->].
  - pose proof (Hstrip (lit "``json")) as Hs.
    change (96 :: lit "``json") with (lit "```json") in Hs. rewrite Hs. cbv zeta.
    rewrite startswith_app.
    change 7%nat with (length (lit "```json")). unfold slice_from.
    rewrite drop_app_length.
    assert (startswith t (lit "```") = false) as ->.
    { rewrite Hhead. change (lit "```") with (96 :: lit "``").
      by rewrite startswith_cons, (proj2 (N.eqb_neq 96 c0)) by congruence. }
    by rewrite Hend.
  - pose proof (Hstrip (lit "``")) as Hs.
    change (96 :: lit "``") with (lit "```") in Hs. rewrite Hs. cbv zeta.
    assert (startswith (lit "```" ++ t) (lit "```json") = false) as ->.
    { change (lit "```" ++ t) with (96 :: 96 :: 96 :: t). rewrite Hhead.
      change (lit "```json") with (96 :: 96 :: 96 :: 106 :: lit "son").
      rewrite !startswith_cons, !N.eqb_refl.
      by rewrite (proj2 (N.eqb_neq 106 c0)) by congruence. }
    rewrite startswith_app.
    change 3%nat with (length (lit "```")). unfold slice_from.
    rewrite drop_app_length. by rewrite Hend.
Qed.

(** An array text with only a closing fence. *)
Lemma response_text_of_closed p :
  json_array_text p → response_text_of (p ++ lit "```") = strip p.
Proof.
  intros (wl & body & wr & -> & Hwl & Hwr).
  assert (strip (wl ++ lit "[" ++ body ++ lit "]" ++ wr) = 91 :: body ++ [93]) as ->
    by (by apply (strip_between wl 91 body 93 wr)).
  assert (strip ((wl ++ lit "[" ++ body ++ lit "]" ++ wr) ++ lit "```")
          = (91 :: body ++ 93 :: wr) ++ lit "```") as Hstrip.
  { replace ((wl ++ lit "[" ++ body ++ lit "]" ++ wr) ++ lit "```")
      with (wl ++ 91 :: (body ++ 93 :: wr ++ lit "``") ++ 96 :: [])
      by (simpl; rewrite <- !app_assoc; simpl; rewrite <- !app_assoc; reflexivity).
    rewrite strip_between by (done || constructor).
    simpl. f_equal. rewrite <- !app_assoc. simpl. rewrite <- !app_assoc. reflexivity. }
  unfold response_text_of. rewrite Hstrip. cbv zeta.
  assert (startswith ((91 :: body ++ 93 :: wr) ++ lit "```") (lit "```json") = false)
    as -> by reflexivity.
  assert (startswith ((91 :: body ++ 93 :: wr) ++ lit "```") (lit "```") = false)
    as -> by reflexivity.
  rewrite endswith_app.
  change 3%nat with (length (lit "```")). rewrite slice_to_neg_app.
  apply (strip_between [] 91 body 93 wr); by try constructor.
Qed.

(** X20. The two fence markers are cut off independently: an array text
    with an opening fence only, a closing fence only, both or none is handed
    to [json.loads] as the array text, trimmed. *)
Theorem fences_are_optional (o p c : pystr) :
  json_array_text p →
  o = [] ∨ fence_opening o →
  c = [] ∨ c = lit "```" →
  response_text_of (o ++ p ++ c) = strip p.
Proof.
  intros Hp [-> | Ho] [-> | ->].
  - rewrite app_nil_r. by apply response_text_of_plain.
  - by apply response_text_of_closed.
  - rewrite app_nil_r. by apply response_text_of_opened.
  - replace (o ++ p ++ lit "```") with ([] ++ o ++ p ++ lit "```" ++ [])
      by (by rewrite app_nil_r).
    apply response_text_of_fenced; [done|done|apply Forall_nil_2|apply Forall_nil_2].
Qed.

End MoreFences.

(** * Trimmed texts *)

Section Trimmed.

Lemma lstrip_trimmed_left s : trimmed_left (lstrip s).
Proof.
  induction s as [|c s IH]; simpl; [done|].
  destruct (isspace c) eqn:Hc; [done|]. exact Hc.
Qed.

Lemma lstrip_fixed s : trimmed_left s → lstrip s = s.
Proof. destruct s as [|c s]; simpl; [done|]. by intros ->. Qed.

Lemma lstrip_snoc s c : isspace c = false → lstrip (s ++ [c]) = lstrip s ++ [c].
Proof.
  intros Hc. induction s as [|a s IH]; simpl; [by rewrite Hc|].
  by destruct (isspace a).
Qed.

Lemma rstrip_cons c s : isspace c = false → rstrip (c :: s) = c :: rstrip s.
Proof.
  intros Hc. unfold rstrip. rewrite reverse_cons, lstrip_snoc by done.
  by rewrite reverse_app.
Qed.

Lemma rstrip_trimmed_left s : trimmed_left s → trimmed_left (rstrip s).
Proof.
  destruct s as [|c s]; simpl; [done|]. intros Hc. by rewrite rstrip_cons.
Qed.

Lemma rstrip_rstrip s : rstrip (rstrip s) = rstrip s.
Proof.
  unfold rstrip. rewrite reverse_involutive.
  by rewrite (lstrip_fixed _ (lstrip_trimmed_left _)).
Qed.

Lemma strip_strip s : strip (strip s) = strip s.
Proof.
  unfold strip.
  rewrite (lstrip_fixed (rstrip (lstrip s)))
    by apply rstrip_trimmed_left, lstrip_trimmed_left.
  apply rstrip_rstrip.
Qed.

(** X21. Trimming is idempotent, so the texts the program works with are
    trimmed: the text handed to [json.loads] has no white space at either
    end, and neither has a text read from the body. *)
Theorem texts_are_trimmed (content : pystr) (data : pyval) (k s : pystr) :
  strip (response_text_of content) = response_text_of content
  ∧ (field_text data k = inr s → strip s = s).
Proof.
  split; [apply strip_strip|].
  destruct data as [| | | | | |d]; try discriminate.
  unfold field_text. simpl. destruct (d !! k) as [[]|]; simpl; try discriminate.
  - intros [= <-]. apply strip_strip.
  - by intros [= <-].
Qed.

End Trimmed.

(** * The further properties at work *)

Lemma missing_api_key_is_500_witness :
  generate_ads (example_client []) example_loads example_str (PInt 7) world_without_key
  = (inr (failure msg_no_api_key 500), world_without_key).
Proof.
  apply missing_api_key_is_500. intros (key & Hkey & _). discriminate Hkey.
Defined.

Lemma example_configured : configured example_world.
Proof. exists (lit "sk-test"). split; [reflexivity|discriminate]. Defined.

Lemma falsy_body_is_400_witness :
  generate_ads (example_client []) example_loads example_str (PList []) example_world
  = (inr (failure msg_no_data 400), example_world).
Proof. apply falsy_body_is_400; [exact example_configured|reflexivity]. Defined.

Lemma unreadable_body_raises_witness :
  ∃ e, generate_ads (example_client []) example_loads example_str
         body_with_numeric_style example_world = (inl e, example_world)
       ∧ exn_class_of e = AttributeError.
Proof.
  apply unreadable_body_raises; [exact example_configured|reflexivity|reflexivity].
Defined.

Lemma answer_shapes_witness :
  ∃ resp w',
    generate_ads (example_client apology) example_loads example_str
      (example_body true) example_world = (inr resp, w')
    ∧ ((∃ results, resp = success results ∧ status resp = 200%Z)
       ∨ ∃ msg code, resp = failure msg code ∧ (code = 400 ∨ code = 422 ∨ code = 500)%Z).
Proof.
  eexists _, _.
  assert (generate_ads (example_client apology) example_loads example_str
            (example_body true) example_world = _) as Hrun by (vm_compute; reflexivity).
  split; [exact Hrun|].
  exact (answer_shapes _ _ _ _ _ _ _ Hrun).
Defined.

Lemma validation_returns_iff_witness :
  validate_and_truncate_ads (PDict ∅) = inr [].
Proof. apply validation_returns_iff. right. split; [by left|reflexivity]. Defined.

Lemma copy_failure_ends_the_request_witness :
  ∃ e w1,
    generate_ads_with_openai (example_client apology) example_loads
      (lit "50% off") (lit "Loja") (lit "moda") (lit "Minimalista") example_world
    = (inl e, w1)
    ∧ generate_ads (example_client apology) example_loads example_str
        (example_body true) example_world
      = (inr (failure (exn_str e) (if is_ValueError e then 422 else 500)), w1)
    ∧ calls w1 = calls example_world
                 ++ [ChatCall (gpt_request (lit "50% off") (lit "Loja")
                                           (lit "moda") (lit "Minimalista"))]
    ∧ stdout w1 = stdout example_world.
Proof.
  eexists _, _.
  assert (generate_ads_with_openai (example_client apology) example_loads
            (lit "50% off") (lit "Loja") (lit "moda") (lit "Minimalista") example_world
          = _) as Hcopy by (vm_compute; reflexivity).
  split; [exact Hcopy|].
  exact (copy_failure_ends_the_request (example_client apology) example_loads example_str
           _ _ _ _ _ _ _ _ _ (example_accepted true) Hcopy).
Defined.

Lemma upstream_failure_status_witness :
  generate_ads (chat_raising (Exn ValueError (lit "bad header"))) example_loads example_str
    (example_body true) example_world
  = (inr (failure (api_prefix ++ lit "bad header") 500),
     after_chat example_world
       (gpt_request (lit "50% off") (lit "Loja") (lit "moda") (lit "Minimalista"))).
Proof.
  exact (upstream_failure_status (chat_raising (Exn ValueError (lit "bad header")))
           example_loads example_str _ _ _ _ _ _ _ _
           (example_accepted true) eq_refl).
Defined.

Lemma copy_generation_footprint_witness :
  (generate_ads_with_openai (chat_raising quota_error) example_loads
     (lit "50% off") (lit "Loja") (lit "moda") [] example_world).2
  = after_chat example_world (gpt_request (lit "50% off") (lit "Loja") (lit "moda") []).
Proof.
  exact (proj1 (copy_generation_footprint (chat_raising quota_error) example_loads
                  (lit "50% off") (lit "Loja") (lit "moda") [] example_world)).
Defined.

Lemma reply_without_text_is_500_witness :
  ∃ detail,
    generate_ads (chat_returning [None]) example_loads example_str
      (example_body true) example_world
    = (inr (failure (api_prefix ++ detail) 500),
       after_chat example_world
         (gpt_request (lit "50% off") (lit "Loja") (lit "moda") (lit "Minimalista"))).
Proof.
  apply (reply_without_text_is_500 (chat_returning [None]) example_loads example_str
           _ _ _ _ _ _ _ [None] (example_accepted true) eq_refl).
  right. by exists [].
Defined.

Lemma empty_reply_is_an_empty_success_witness :
  generate_ads (example_client (lit "{}")) shape_loads example_str
    (example_body true) example_world
  = (inr (success []),
     after_chat example_world
       (gpt_request (lit "50% off") (lit "Loja") (lit "moda") (lit "Minimalista"))).
Proof.
  apply (empty_reply_is_an_empty_success (example_client (lit "{}")) shape_loads example_str
           _ _ _ _ _ _ _ (lit "{}") [] (PDict ∅) (example_accepted true) eq_refl).
  - vm_compute. reflexivity.
  - right. by left.
Defined.

Lemma wrong_shape_reply_is_500_witness :
  generate_ads (example_client null_title_json)
    shape_loads example_str (example_body true) example_world
  = (inr (failure (api_prefix ++ exn_str (not_subscriptable PNone)) 500),
     after_chat example_world
       (gpt_request (lit "50% off") (lit "Loja") (lit "moda") (lit "Minimalista"))).
Proof.
  apply (wrong_shape_reply_is_500 (example_client null_title_json)
           shape_loads example_str (example_body true) example_world
           (lit "50% off") (lit "Loja") (lit "moda") (lit "Minimalista") (PBool true)
           null_title_json [] (PList [null_title_ad]) (not_subscriptable PNone)).
  - exact (example_accepted true).
  - reflexivity.
  - vm_compute. reflexivity.
  - vm_compute. reflexivity.
Defined.

Lemma answer_depends_on_values_read_witness :
  generate_ads (example_client fenced_reply) example_loads example_str
    padded_body example_world
  = generate_ads (example_client fenced_reply) example_loads example_str
      (example_body true) example_world.
Proof.
  apply (answer_depends_on_values_read (example_client fenced_reply) example_loads
           example_str padded_body (example_body true) example_world
           (lit "50% off") (lit "Loja") (lit "moda") (lit "Minimalista") (PBool true)).
  - repeat split; reflexivity.
  - repeat split; reflexivity.
Defined.

Lemma fenced_text_is_trimmed_witness :
  response_text_of (lit "```" ++ capital_tag_payload ++ lit "```")
  = strip capital_tag_payload.
Proof.
  apply (proj2 (fenced_text_is_trimmed capital_tag_payload)). reflexivity.
Defined.

Lemma fences_are_optional_witness :
  response_text_of (lit "```json" ++ example_payload ++ []) = strip example_payload.
Proof.
  apply fences_are_optional.
  - exact example_payload_is_array.
  - right. by left.
  - by left.
Defined.

Lemma texts_are_trimmed_witness : strip (lit "50% off") = lit "50% off".
Proof.
  apply (proj2 (texts_are_trimmed [] (example_body true) k_oferta (lit "50% off"))).
  reflexivity.
Defined.


(** * Fenced replies, from the call to the drafts *)

(** What is made of a response whose first choice has a text. *)
Lemma ads_of_first_choice (json_loads : pystr -> pystr + pyval)
    (content : pystr) (rest : list (option pystr)) :
  (inr (Some content :: rest) : result (list (option pystr)))
    ≫= ads_of_response json_loads
  = loads json_loads (response_text_of content) ≫= validate_and_truncate_ads.
Proof. reflexivity. Qed.

(** C6. When the chat call returns, as the text of its first choice, the
    text of a JSON array between an opening fence marker (with or without
    the word json) and a closing one, with or without white space around the
    whole, generate_ads_with_openai cuts the markers off: what it hands to
    [json.loads] is the array text, trimmed, and what it returns are the
    validated drafts of the value decoded from that text (and when the
    decoding or the validation of that text fails, it raises what it raises
    for that failure).  This is exactly what it does when the reply is the
    array text alone. *)
Theorem fenced_reply_is_read_as_unfenced (client : OpenAI)
    (json_loads : pystr -> pystr + pyval)
    (oferta cliente nicho estilo_visual : pystr) (w : world) (f p ws1 ws2 : pystr)
    (rest : list (option pystr)) :
  json_array_text p → fence_opening f → all_space ws1 → all_space ws2 →
  chat_completions_create client (calls w)
    (gpt_request oferta cliente nicho estilo_visual)
  = inr (Some (ws1 ++ f ++ p ++ lit "```" ++ ws2) :: rest) →
  response_text_of (ws1 ++ f ++ p ++ lit "```" ++ ws2) = strip p
  ∧ (∀ v ads,
       json_loads (strip p) = inr v → validate_and_truncate_ads v = inr ads →
       generate_ads_with_openai client json_loads oferta cliente nicho estilo_visual w
       = (inr ads, after_chat w (gpt_request oferta cliente nicho estilo_visual)))
  ∧ (∀ detail,
       json_loads (strip p) = inl detail →
       generate_ads_with_openai client json_loads oferta cliente nicho estilo_visual w
       = (inl (Exn ValueError (parse_prefix ++ detail)),
          after_chat w (gpt_request oferta cliente nicho estilo_visual)))
  ∧ (∀ v e,
       json_loads (strip p) = inr v → validate_and_truncate_ads v = inl e →
       generate_ads_with_openai client json_loads oferta cliente nicho estilo_visual w
       = (inl (Exn Exception_ (api_prefix ++ exn_str e)),
          after_chat w (gpt_request oferta cliente nicho estilo_visual)))
  ∧ (∀ client' rest',
       chat_completions_create client' (calls w)
         (gpt_request oferta cliente nicho estilo_visual) = inr (Some p :: rest') →
       generate_ads_with_openai client' json_loads oferta cliente nicho estilo_visual w
       = generate_ads_with_openai client json_loads oferta cliente nicho estilo_visual w).
Proof.
  intros Hp Hf Hws1 Hws2 Hchat.
  pose proof (response_text_of_fenced f p ws1 ws2 Hp Hf Hws1 Hws2) as Hfenced.
  assert (generate_ads_with_openai client json_loads oferta cliente nicho estilo_visual w
          = (match loads json_loads (strip p) ≫= validate_and_truncate_ads with
             | inl e => inl (reraised e)
             | inr ads => inr ads
             end,
             after_chat w (gpt_request oferta cliente nicho estilo_visual))) as Hrun.
  { by rewrite generate_ads_with_openai_run, Hchat, ads_of_first_choice, Hfenced. }
  split; [exact Hfenced|]. split; [|split; [|split]].
  - intros v ads Hv Hads. rewrite Hrun. unfold loads. rewrite Hv. simpl. by rewrite Hads.
  - intros detail Hd. rewrite Hrun. unfold loads. by rewrite Hd.
  - intros v e Hv He. rewrite Hrun. unfold loads. rewrite Hv. simpl. rewrite He.
    unfold reraised, is_JSONDecodeError.
    by destruct (validate_raises v e He) as [-> | ->].
  - intros client' rest' Hchat'. rewrite Hrun.
    by rewrite generate_ads_with_openai_run, Hchat', ads_of_first_choice,
      (response_text_of_plain p Hp).
Qed.

(** [strip] of the example payload is the example array. *)
Lemma strip_example_payload : strip example_payload = example_json.
Proof. vm_compute. reflexivity. Qed.

Lemma fenced_reply_is_read_as_unfenced_witness :
  response_text_of ([] ++ lit "```json" ++ example_payload ++ lit "```" ++ NL)
  = strip example_payload
  ∧ generate_ads_with_openai
      (example_client ([] ++ lit "```json" ++ example_payload ++ lit "```" ++ NL))
      example_loads (lit "50% off") (lit "Loja") (lit "moda") [] example_world
    = (inr example_drafts,
       after_chat example_world (gpt_request (lit "50% off") (lit "Loja") (lit "moda") []))
  ∧ generate_ads_with_openai (example_client example_payload)
      example_loads (lit "50% off") (lit "Loja") (lit "moda") [] example_world
    = generate_ads_with_openai
        (example_client ([] ++ lit "```json" ++ example_payload ++ lit "```" ++ NL))
        example_loads (lit "50% off") (lit "Loja") (lit "moda") [] example_world.
Proof.
  destruct (fenced_reply_is_read_as_unfenced
              (example_client ([] ++ lit "```json" ++ example_payload ++ lit "```" ++ NL))
              example_loads (lit "50% off") (lit "Loja") (lit "moda") [] example_world
              (lit "```json") example_payload [] NL [])
    as (Htext & Hdrafts & _ & _ & Hsame).
  - exact example_payload_is_array.
  - by left.
  - constructor.
  - repeat constructor.
  - reflexivity.
  - split; [exact Htext|]. split.
    + apply (Hdrafts example_ads example_drafts).
      * rewrite strip_example_payload. reflexivity.
      * vm_compute. reflexivity.
    + apply (Hsame (example_client example_payload) []). reflexivity.
Defined.

Lemma escaping_exception_is_from_reading_witness :
  example_world = example_world
  ∧ (@inl exn pyval bad_request = inl bad_request
     ∨ ∃ data, @inl exn pyval bad_request = inr data
               ∧ unreadable data = true
               ∧ exn_class_of bad_request = AttributeError).
Proof.
  apply (escaping_exception_is_from_reading (example_client []) example_loads example_str
           (inl bad_request) example_world bad_request example_world).
  reflexivity.
Defined.

Lemma image_requests_are_bounded_witness :
  ∃ out w' cs,
    attach_images (example_client []) example_str (lit "Minimalista") example_drafts
      example_world = (inr out, w')
    ∧ calls w' = calls example_world ++ cs
    ∧ (length cs ≤ length example_drafts)%nat
    ∧ Forall (standard_image_call (312 + length (lit "Minimalista"))) cs.
Proof.
  apply (image_requests_are_bounded (example_client []) example_str example_loads
           (lit "Minimalista") example_drafts).
  apply Forall_fmap, Forall_true. intros d. apply truncated_ad_within_limits.
Defined.
